(** * Two U-Boot leaf drivers: the sun50i (H6) USB3 PHY and the APQ8096 pinctrl

    Shallow embedding of
      - drivers/phy/allwinner/phy-sun50i-usb3.c
      - drivers/pinctrl/qcom/pinctrl-apq8096.c
    and the properties their description states about them.

    The PHY driver is stateful: it talks to a clock gate, a reset line and a
    block of memory-mapped registers. It is written in ExtLib's state monad
    over a hardware state that also keeps the log of the calls made, so that
    the order and the number of the calls can be stated. The pinctrl driver
    is a pair of lookup tables and one formatter into a static buffer. *)

From Stdlib Require Import ZArith List String Ascii Bool Lia.
From Stdlib Require DecimalString.
From ExtLib Require Import Structures.Monad Structures.MonadState.
From ExtLib Require Import Data.Monads.StateMonad.
Import ListNotations.
Import MonadNotation.
Local Open Scope monad_scope.
Local Open Scope Z_scope.

(** ** Machine integers *)

(** Wrap-around of a C [u32] (and of the 64-bit [unsigned long] of arm64). *)
Definition u32 (x : Z) : Z := x mod 2 ^ 32.
Definition u64 (x : Z) : Z := x mod 2 ^ 64.

(** ** The USB3 PHY driver *)

Module Phy.

(** Modelled from the spec: the width of [unsigned long] on the arm64 SoC
    the driver is for; the header that gives it is not among the sources at
    hand. *)
Definition BITS_PER_LONG : Z := 64.

(** Modelled from the spec: the macro GENMASK(h, l) of linux/bitops.h, which
    the driver includes but which is not among the sources at hand. It is the
    contiguous mask with bits l to h set,
    [((~0UL) << l) & (~0UL >> (BITS_PER_LONG - 1 - h))]. *)
Definition GENMASK (h l : Z) : Z :=
  Z.land (u64 (Z.shiftl (u64 (Z.lnot 0)) l))
         (Z.shiftr (u64 (Z.lnot 0)) (BITS_PER_LONG - 1 - h)).

(** Interface Status and Control Registers (byte offsets from the base). *)
Definition SUNXI_ISCR : Z := 0x00.
Definition SUNXI_PIPE_CLOCK_CONTROL : Z := 0x14.
Definition SUNXI_PHY_TUNE_LOW : Z := 0x18.
Definition SUNXI_PHY_TUNE_HIGH : Z := 0x1c.
Definition SUNXI_PHY_EXTERNAL_CONTROL : Z := 0x20.

(** USB2.0 Interface Status and Control Register *)
Definition SUNXI_ISCR_FORCE_VBUS : Z := Z.shiftl 3 12.

(** PIPE Clock Control Register *)
Definition SUNXI_PCC_PIPE_CLK_OPEN : Z := Z.shiftl 1 6.

(** PHY External Control Register *)
Definition SUNXI_PEC_EXTERN_VBUS : Z := Z.shiftl 3 1.
Definition SUNXI_PEC_SSC_EN : Z := Z.shiftl 1 24.
Definition SUNXI_PEC_REF_SSP_EN : Z := Z.shiftl 1 26.

(** PHY Tune High Register *)
Definition SUNXI_TX_DEEMPH_3P5DB (n : Z) : Z := Z.shiftl n 19.
Definition SUNXI_TX_DEEMPH_3P5DB_MASK : Z := GENMASK 24 19.
Definition SUNXI_TX_DEEMPH_6DB (n : Z) : Z := Z.shiftl n 13.
Definition SUNXI_TX_DEEMPH_6GB_MASK : Z := GENMASK 18 13.
Definition SUNXI_TX_SWING_FULL (n : Z) : Z := Z.shiftl n 6.
Definition SUNXI_TX_SWING_FULL_MASK : Z := GENMASK 12 6.
Definition SUNXI_LOS_BIAS (n : Z) : Z := Z.shiftl n 3.
Definition SUNXI_LOS_BIAS_MASK : Z := GENMASK 5 3.
Definition SUNXI_TXVBOOSTLVL (n : Z) : Z := Z.shiftl n 0.
Definition SUNXI_TXVBOOSTLVL_MASK : Z := GENMASK 2 0.

(** The five fields that [sun50i_usb3_phy_open] rewrites, together. *)
Definition TUNE_HIGH_FIELDS : Z :=
  Z.lor (Z.lor (Z.lor (Z.lor SUNXI_TXVBOOSTLVL_MASK SUNXI_LOS_BIAS_MASK)
                      SUNXI_TX_SWING_FULL_MASK)
               SUNXI_TX_DEEMPH_6GB_MASK)
        SUNXI_TX_DEEMPH_3P5DB_MASK.

(** One call made by the driver to a collaborator, as a mock would log it. *)
Inductive event : Type :=
| ClkPrepareEnable
| ClkDisableUnprepare
| ResetDeassert
| ResetAssert
| Readl (addr : Z)
| Writel (val addr : Z).

Definition is_read (e : event) : bool :=
  match e with Readl _ => true | _ => false end.
Definition is_write (e : event) : bool :=
  match e with Writel _ _ => true | _ => false end.
Definition is_mmio (e : event) : bool := is_read e || is_write e.

Definition count (p : event -> bool) (l : list event) : nat :=
  List.length (List.filter p l).

(** [struct sun50i_usb3_phy_priv] with what stands behind its three handles:
    the register block ([regs], indexed by byte offset), the reset line and
    the clock gate. [clk_enable_ret] and [reset_deassert_ret] are the codes
    the two fallible collaborators answer with (0 is success), and [calls] is
    the log of the calls made so far, oldest first. *)
Record hw : Type := mkHw {
  regs : Z -> Z;
  reset_asserted : bool;
  reset_deassert_ret : Z;
  clk_enabled : bool;
  clk_enable_ret : Z;
  calls : list event
}.

Definition record (e : event) (w : hw) : hw :=
  mkHw (regs w) (reset_asserted w) (reset_deassert_ret w)
       (clk_enabled w) (clk_enable_ret w) (calls w ++ [e]).

Definition set_clk (b : bool) (w : hw) : hw :=
  mkHw (regs w) (reset_asserted w) (reset_deassert_ret w)
       b (clk_enable_ret w) (calls w).

Definition set_reset (b : bool) (w : hw) : hw :=
  mkHw (regs w) b (reset_deassert_ret w)
       (clk_enabled w) (clk_enable_ret w) (calls w).

Definition set_reg (addr val : Z) (w : hw) : hw :=
  mkHw (fun a => if a =? addr then val else regs w a)
       (reset_asserted w) (reset_deassert_ret w)
       (clk_enabled w) (clk_enable_ret w) (calls w).

(** What a register holds, seen as the [u32] that [readl] would return. *)
Definition reg (w : hw) (addr : Z) : Z := u32 (regs w addr).

(** Modelled from the spec: [readl] of asm/io.h, one of the memory-mapped
    register access primitives, which are not among the sources at hand; a
    read returns the 32-bit content of the register. *)
Definition readl (addr : Z) : state hw Z :=
  w <- get ;;
  put (record (Readl addr) w) ;;
  ret (reg w addr).

(** Modelled from the spec: [writel] of asm/io.h, the other register access
    primitive; a write replaces the 32-bit content of the register. *)
Definition writel (val addr : Z) : state hw unit :=
  modify (fun w => set_reg addr (u32 val) (record (Writel (u32 val) addr) w)) ;;
  ret tt.

(** Modelled from the spec: [clk_prepare_enable] of clk.h, on one gating
    clock; the clock framework is not among the sources at hand. Enabling
    fails when the clock cannot be prepared or enabled, and then leaves the
    gate as it was. *)
Definition clk_prepare_enable : state hw Z :=
  w <- get ;;
  put (record ClkPrepareEnable w) ;;
  if clk_enable_ret w =? 0
  then modify (set_clk true) ;; ret 0
  else ret (clk_enable_ret w).

(** Modelled from the spec: [clk_disable_unprepare] of clk.h; it gates the
    clock and reports nothing. *)
Definition clk_disable_unprepare : state hw unit :=
  modify (fun w => set_clk false (record ClkDisableUnprepare w)) ;;
  ret tt.

(** Modelled from the spec: [reset_deassert] of reset.h, on one reset line;
    the reset framework is not among the sources at hand. De-asserting can
    fail, and then leaves the line as it was. *)
Definition reset_deassert : state hw Z :=
  w <- get ;;
  put (record ResetDeassert w) ;;
  if reset_deassert_ret w =? 0
  then modify (set_reset false) ;; ret 0
  else ret (reset_deassert_ret w).

(** Modelled from the spec: [reset_assert] of reset.h; it asserts the line,
    and what it reports the driver does not look at. *)
Definition reset_assert : state hw unit :=
  modify (fun w => set_reset true (record ResetAssert w)) ;;
  ret tt.

(** [static void sun50i_usb3_phy_open(struct sun50i_usb3_phy_priv *phy)] *)
Definition sun50i_usb3_phy_open : state hw unit :=
  val <- readl SUNXI_PHY_EXTERNAL_CONTROL ;;
  let val := u32 (Z.lor val SUNXI_PEC_EXTERN_VBUS) in
  let val := u32 (Z.lor val (Z.lor SUNXI_PEC_SSC_EN SUNXI_PEC_REF_SSP_EN)) in
  writel val SUNXI_PHY_EXTERNAL_CONTROL ;;

  val <- readl SUNXI_PIPE_CLOCK_CONTROL ;;
  let val := u32 (Z.lor val SUNXI_PCC_PIPE_CLK_OPEN) in
  writel val SUNXI_PIPE_CLOCK_CONTROL ;;

  val <- readl SUNXI_ISCR ;;
  let val := u32 (Z.lor val SUNXI_ISCR_FORCE_VBUS) in
  writel val SUNXI_ISCR ;;

  writel 0x0047fc87 SUNXI_PHY_TUNE_LOW ;;

  val <- readl SUNXI_PHY_TUNE_HIGH ;;
  let val := u32 (Z.land val (u64 (Z.lnot TUNE_HIGH_FIELDS))) in
  let val := u32 (Z.lor val (SUNXI_TXVBOOSTLVL 0x7)) in
  let val := u32 (Z.lor val (SUNXI_LOS_BIAS 0x7)) in
  let val := u32 (Z.lor val (SUNXI_TX_SWING_FULL 0x55)) in
  let val := u32 (Z.lor val (SUNXI_TX_DEEMPH_6DB 0x20)) in
  let val := u32 (Z.lor val (SUNXI_TX_DEEMPH_3P5DB 0x15)) in
  writel val SUNXI_PHY_TUNE_HIGH.

(** [static int sun50i_usb3_phy_init(struct phy *phy)] *)
Definition sun50i_usb3_phy_init : state hw Z :=
  ret_ <- clk_prepare_enable ;;
  if negb (ret_ =? 0) then ret ret_
  else
    ret_ <- reset_deassert ;;
    if negb (ret_ =? 0) then
      clk_disable_unprepare ;;
      ret ret_
    else
      sun50i_usb3_phy_open ;;
      ret 0.

(** [static int sun50i_usb3_phy_exit(struct phy *phy)] *)
Definition sun50i_usb3_phy_exit : state hw Z :=
  reset_assert ;;
  clk_disable_unprepare ;;
  ret 0.

(** The state in which [sun50i_usb3_phy_open] starts: the clock was enabled
    and the reset released. *)
Definition powered (w : hw) : hw :=
  set_reset false (record ResetDeassert (set_clk true (record ClkPrepareEnable w))).

(** What the last read-modify-write of [sun50i_usb3_phy_open] makes of the
    value read from the tune-high register; [open_tune_high] below shows it
    is what the function stores. *)
Definition tune_high_update (val : Z) : Z :=
  let val := u32 (Z.land val (u64 (Z.lnot TUNE_HIGH_FIELDS))) in
  let val := u32 (Z.lor val (SUNXI_TXVBOOSTLVL 0x7)) in
  let val := u32 (Z.lor val (SUNXI_LOS_BIAS 0x7)) in
  let val := u32 (Z.lor val (SUNXI_TX_SWING_FULL 0x55)) in
  let val := u32 (Z.lor val (SUNXI_TX_DEEMPH_6DB 0x20)) in
  let val := u32 (Z.lor val (SUNXI_TX_DEEMPH_3P5DB 0x15)) in
  val.

(** The register an access is made to. *)
Definition addr_of (e : event) : option Z :=
  match e with
  | Readl addr => Some addr
  | Writel _ addr => Some addr
  | _ => None
  end.

(** The five registers of the block. *)
Definition register_map : list Z :=
  [ SUNXI_ISCR; SUNXI_PIPE_CLOCK_CONTROL; SUNXI_PHY_TUNE_LOW;
    SUNXI_PHY_TUNE_HIGH; SUNXI_PHY_EXTERNAL_CONTROL ].

(** The bit positions of a [u32]. *)
Definition bit_positions : list Z := Eval cbv in map Z.of_nat (seq 0 32).

(** A board at rest: clock gated, reset held, registers zero, nothing logged;
    [ce] and [rd] are the answers of the clock and of the reset controller. *)
Definition board (ce rd : Z) : hw :=
  mkHw (fun _ => 0) true rd false ce [].

End Phy.

(** ** The APQ8096 pin-control driver *)

Module Pinctrl.

Definition MAX_PIN_NAME_LEN : Z := 32.

Definition msm_pinctrl_pins : list string :=
  [ "SDC1_CLK";
    "SDC1_CMD";
    "SDC1_DATA";
    "SDC2_CLK";
    "SDC2_CMD";
    "SDC2_DATA";
    "SDC1_RCLK" ]%string.

(** [struct pinctrl_function] of pinctrl-qcom.h: a name and a mux value. *)
Record pinctrl_function : Type := mkFunction {
  name : string;
  val : Z
}.

Definition msm_pinctrl_functions : list pinctrl_function :=
  [ mkFunction "blsp_uart8"%string 2 ].

Definition ARRAY_SIZE {A : Type} (arr : list A) : Z := Z.of_nat (List.length arr).

(** A [const char *] handed out by the driver: it points either into the one
    static buffer [pin_name] or at a string literal. *)
Inductive char_ptr : Type :=
| Ptr_pin_name
| Ptr_literal (s : string).

Definition NUL : ascii := Ascii.zero.

Definition not_NUL (c : ascii) : Prop := Ascii.eqb c NUL = false.

(** The C string found at the start of a buffer: the characters before the
    first NUL. *)
Fixpoint cstr (buf : list ascii) : string :=
  match buf with
  | [] => EmptyString
  | c :: rest => if Ascii.eqb c NUL then EmptyString else String c (cstr rest)
  end.

Definition deref (p : char_ptr) (pin_name : list ascii) : string :=
  match p with
  | Ptr_pin_name => cstr pin_name
  | Ptr_literal s => s
  end.

(** Modelled from the spec: the formatting of lib/vsprintf.c, which is not
    among the sources at hand. The character of one decimal digit. *)
Definition digit (d : Z) : ascii := ascii_of_nat (Z.to_nat (48 + d)).

(** Modelled from the spec: the conversion %u, which produces the decimal
    digits of its argument, lowest first, by repeated division by ten, and
    emits them in reverse. *)
Fixpoint put_dec (fuel : nat) (num : Z) (acc : list ascii) : list ascii :=
  match fuel with
  | O => acc
  | S fuel' =>
      let acc' := digit (num mod 10) :: acc in
      if num / 10 =? 0 then acc' else put_dec fuel' (num / 10) acc'
  end.

(** Modelled from the spec: %u on an [unsigned int]; ten digits are all a
    [u32] can have ([format_u_value] below). *)
Definition format_u (num : Z) : list ascii := put_dec 10 (u32 num) [].

(** Modelled from the spec: the text the format "GPIO_%u" stands for. *)
Definition format_GPIO_u (selector : Z) : list ascii :=
  list_ascii_of_string "GPIO_"%string ++ format_u selector.

(** Modelled from the spec: [snprintf] at the format "GPIO_%u": it stores at
    most [size - 1] characters of the text followed by a NUL, and returns the
    length the whole text has. *)
Definition snprintf_GPIO_u (buf : list ascii) (size : Z) (selector : Z)
  : Z * list ascii :=
  let out := format_GPIO_u selector in
  let written := firstn (Z.to_nat (size - 1)) out in
  (Z.of_nat (List.length out),
   if size <=? 0 then buf
   else written ++ NUL :: skipn (S (List.length written)) buf).

(** [apq8096_get_function_name]; an index outside the table has no meaning
    in C and is [None] here. *)
Definition apq8096_get_function_name (selector : Z) : option string :=
  option_map name (nth_error msm_pinctrl_functions (Z.to_nat selector)).

(** [apq8096_get_pin_name], on the content of the static buffer [pin_name]:
    the pointer returned and the buffer afterwards. *)
Definition apq8096_get_pin_name (selector : Z) (pin_name : list ascii)
  : option (char_ptr * list ascii) :=
  if selector <? 150 then
    let '(_, pin_name') := snprintf_GPIO_u pin_name MAX_PIN_NAME_LEN selector in
    Some (Ptr_pin_name, pin_name')
  else
    match nth_error msm_pinctrl_pins (Z.to_nat (u32 (selector - 150))) with
    | Some lit => Some (Ptr_literal lit, pin_name)
    | None => None
    end.

(** [apq8096_get_function_mux] *)
Definition apq8096_get_function_mux (selector : Z) : option Z :=
  option_map val (nth_error msm_pinctrl_functions (Z.to_nat selector)).

(** [struct msm_pinctrl_data] of pinctrl-qcom.h, with [pin_data.pin_count]
    flattened into [pin_count]. *)
Record msm_pinctrl_data : Type := mkData {
  pin_count : Z;
  functions_count : Z;
  get_function_name : Z -> option string;
  get_function_mux : Z -> option Z;
  get_pin_name : Z -> list ascii -> option (char_ptr * list ascii)
}.

Definition apq8096_data : msm_pinctrl_data :=
  mkData 157
         (ARRAY_SIZE msm_pinctrl_functions)
         apq8096_get_function_name
         apq8096_get_function_mux
         apq8096_get_pin_name.

(** What is read through the pointer that [get_pin_name] returns. *)
Definition pin_name_string (selector : Z) (pin_name : list ascii)
  : option string :=
  match apq8096_get_pin_name selector pin_name with
  | Some (p, pin_name') => Some (deref p pin_name')
  | None => None
  end.

(** The decimal rendering of a number, as the standard library prints it;
    this is the reference the formatter is compared with. *)
Definition decimal (n : Z) : string :=
  DecimalString.NilZero.string_of_uint (N.to_uint (Z.to_N n)).

(** The number a run of decimal digits denotes, most significant first. *)
Definition digit_value (c : ascii) : Z := Z.of_nat (nat_of_ascii c) - 48.

Definition digits_value (l : list ascii) : Z :=
  fold_left (fun v c => 10 * v + digit_value c) l 0.

(** The selectors of the generic GPIO pins. *)
Definition gpio_selectors : list Z := Eval cbv in map Z.of_nat (seq 0 150).

(** The static buffer as the loader leaves it: thirty-two NULs. *)
Definition fresh_pin_name : list ascii := repeat NUL (Z.to_nat MAX_PIN_NAME_LEN).

End Pinctrl.

(** ** Probing the USB3 PHY *)

Module Probe.

(** Modelled from the spec: the errno EINVAL of linux/errno.h, which is not
    among the sources at hand. *)
Definition EINVAL : Z := 22.

Definition LF : string := String (ascii_of_nat 10) EmptyString.

(** One call made by [sun50i_usb3_phy_probe] to the driver model. *)
Inductive probe_event : Type :=
| ClkGetByIndex (index : Z)
| ResetGetByIndex (index : Z)
| DevReadAddrPtr
| DevErr (msg : string).

(** The [struct udevice] being probed, with its private data: what the
    device description answers when asked for clock 0 ([clk_get_ret]), for
    reset 0 ([reset_get_ret]) and for the register base ([addr_ptr], 0 for
    NULL); whether [priv->clk] and [priv->reset] were filled in; the pointer
    in [priv->regs]; and the log of the calls made, oldest first. *)
Record udevice : Type := mkDev {
  clk_get_ret : Z;
  reset_get_ret : Z;
  addr_ptr : Z;
  priv_clk : bool;
  priv_reset : bool;
  priv_regs : Z;
  probe_calls : list probe_event
}.

Definition note (e : probe_event) (d : udevice) : udevice :=
  mkDev (clk_get_ret d) (reset_get_ret d) (addr_ptr d)
        (priv_clk d) (priv_reset d) (priv_regs d) (probe_calls d ++ [e]).

Definition set_priv_clk (d : udevice) : udevice :=
  mkDev (clk_get_ret d) (reset_get_ret d) (addr_ptr d)
        true (priv_reset d) (priv_regs d) (probe_calls d).

Definition set_priv_reset (d : udevice) : udevice :=
  mkDev (clk_get_ret d) (reset_get_ret d) (addr_ptr d)
        (priv_clk d) true (priv_regs d) (probe_calls d).

Definition set_priv_regs (p : Z) (d : udevice) : udevice :=
  mkDev (clk_get_ret d) (reset_get_ret d) (addr_ptr d)
        (priv_clk d) (priv_reset d) p (probe_calls d).

(** Modelled from the spec: [clk_get_by_index] of clk.h, into [priv->clk];
    the clock framework is not among the sources at hand. On failure the
    handle is left as it was. *)
Definition clk_get_by_index (index : Z) : state udevice Z :=
  d <- get ;;
  put (note (ClkGetByIndex index) d) ;;
  if clk_get_ret d =? 0
  then modify set_priv_clk ;; ret 0
  else ret (clk_get_ret d).

(** Modelled from the spec: [reset_get_by_index] of reset.h, into
    [priv->reset]; on failure the handle is left as it was. *)
Definition reset_get_by_index (index : Z) : state udevice Z :=
  d <- get ;;
  put (note (ResetGetByIndex index) d) ;;
  if reset_get_ret d =? 0
  then modify set_priv_reset ;; ret 0
  else ret (reset_get_ret d).

(** Modelled from the spec: [dev_read_addr_ptr] of dm.h: the register base
    of the device as a pointer, NULL when it has none. *)
Definition dev_read_addr_ptr : state udevice Z :=
  d <- get ;;
  put (note DevReadAddrPtr d) ;;
  ret (addr_ptr d).

(** Modelled from the spec: [dev_err] of dm/device_compat.h: the message is
    reported, nothing else happens. *)
Definition dev_err (msg : string) : state udevice unit :=
  modify (note (DevErr msg)) ;;
  ret tt.

(** [static int sun50i_usb3_phy_probe(struct udevice *dev)] *)
Definition sun50i_usb3_phy_probe : state udevice Z :=
  ret_ <- clk_get_by_index 0 ;;
  if negb (ret_ =? 0) then
    dev_err ("failed to get phy clock" ++ LF) ;;
    ret ret_
  else
    ret_ <- reset_get_by_index 0 ;;
    if negb (ret_ =? 0) then
      dev_err ("failed to get reset control" ++ LF) ;;
      ret ret_
    else
      p <- dev_read_addr_ptr ;;
      modify (set_priv_regs p) ;;
      if p =? 0 then ret (- EINVAL)
      else ret 0.

Definition is_dev_err (e : probe_event) : bool :=
  match e with DevErr _ => true | _ => false end.

(** A device just bound: nothing acquired, nothing logged. *)
Definition bound (cg rg addr : Z) : udevice :=
  mkDev cg rg addr false false 0 [].

End Probe.

(** ** Telling the calls of the PHY driver apart *)

Module PhyCalls.
Import Phy.

Definition is_enable (e : event) : bool :=
  match e with ClkPrepareEnable => true | _ => false end.
Definition is_disable (e : event) : bool :=
  match e with ClkDisableUnprepare => true | _ => false end.
Definition is_deassert (e : event) : bool :=
  match e with ResetDeassert => true | _ => false end.
Definition is_assert (e : event) : bool :=
  match e with ResetAssert => true | _ => false end.

(** A board whose five registers hold [v] and whose clock and reset answer
    [ce] and [rd]; the clock and reset states are [clk] and [rst]. *)
Definition board_with (v : Z) (clk rst : bool) (ce rd : Z) : hw :=
  mkHw (fun _ => v) rst rd clk ce [].

End PhyCalls.

(** ** Running the PHY driver *)

Section PhyRuns.
Import Phy.

Lemma init_clk_failure_run (w : hw) :
  clk_enable_ret w <> 0 ->
  runState sun50i_usb3_phy_init w = (clk_enable_ret w, record ClkPrepareEnable w).
Proof.
  intros Hclk. unfold sun50i_usb3_phy_init, clk_prepare_enable. simpl.
  destruct (Z.eqb_spec (clk_enable_ret w) 0) as [E | _]; [contradiction |].
  simpl. destruct (Z.eqb_spec (clk_enable_ret w) 0) as [E | _]; [contradiction |].
  reflexivity.
Qed.

Lemma init_reset_failure_run (w : hw) :
  clk_enable_ret w = 0 ->
  reset_deassert_ret w <> 0 ->
  runState sun50i_usb3_phy_init w =
    (reset_deassert_ret w,
     set_clk false
       (record ClkDisableUnprepare
          (record ResetDeassert (set_clk true (record ClkPrepareEnable w))))).
Proof.
  intros Hclk Hrst.
  unfold sun50i_usb3_phy_init, clk_prepare_enable, reset_deassert. simpl.
  rewrite Hclk. simpl.
  destruct (Z.eqb_spec (reset_deassert_ret w) 0) as [E | _]; [contradiction |].
  simpl. destruct (Z.eqb_spec (reset_deassert_ret w) 0) as [E | _]; [contradiction |].
  reflexivity.
Qed.

Lemma init_success_run (w : hw) :
  clk_enable_ret w = 0 ->
  reset_deassert_ret w = 0 ->
  runState sun50i_usb3_phy_init w =
    (0, execState sun50i_usb3_phy_open (powered w)).
Proof.
  intros Hclk Hrst.
  unfold sun50i_usb3_phy_init, clk_prepare_enable, reset_deassert. simpl.
  rewrite Hclk. simpl. rewrite Hrst. reflexivity.
Qed.

Lemma exit_run (w : hw) :
  runState sun50i_usb3_phy_exit w =
    (0, set_clk false
          (record ClkDisableUnprepare (set_reset true (record ResetAssert w)))).
Proof. reflexivity. Qed.

(** Sequencing in the state monad: the second computation starts where the
    first one stopped. *)
Lemma execState_seq {A B : Type} (c1 : state hw A) (c2 : state hw B) (w : hw) :
  execState (c1 ;; c2) w = execState c2 (execState c1 w).
Proof.
  unfold execState. simpl. destruct (runState c1 w). reflexivity.
Qed.

Lemma u32_idem (x : Z) : u32 (u32 x) = u32 x.
Proof. unfold u32. apply Z.mod_mod. lia. Qed.

(** *** One step of the register accesses *)

Lemma exec_readl {B : Type} (addr : Z) (k : Z -> state hw B) (w : hw) :
  runState (bind (readl addr) k) w =
    runState (k (reg w addr)) (record (Readl addr) w).
Proof. reflexivity. Qed.

Lemma exec_writel {B : Type} (v addr : Z) (k : unit -> state hw B) (w : hw) :
  runState (bind (writel v addr) k) w =
    runState (k tt) (set_reg addr (u32 v) (record (Writel (u32 v) addr) w)).
Proof. reflexivity. Qed.

Lemma exec_writel_last (v addr : Z) (w : hw) :
  runState (writel v addr) w =
    (tt, set_reg addr (u32 v) (record (Writel (u32 v) addr) w)).
Proof. reflexivity. Qed.

Lemma reg_record (e : event) (w : hw) (a : Z) : reg (record e w) a = reg w a.
Proof. reflexivity. Qed.

Lemma reg_set_reg_other (b v : Z) (w : hw) (a : Z) :
  a <> b -> reg (set_reg b v w) a = reg w a.
Proof.
  intros Hab. unfold reg, set_reg. simpl.
  destruct (Z.eqb_spec a b); [contradiction | reflexivity].
Qed.

Lemma reg_set_reg_same (b v : Z) (w : hw) : reg (set_reg b v w) b = u32 v.
Proof. unfold reg, set_reg. simpl. rewrite Z.eqb_refl. reflexivity. Qed.

Lemma regs_record (e : event) (w : hw) (a : Z) : regs (record e w) a = regs w a.
Proof. reflexivity. Qed.

Lemma regs_set_reg_other (b v : Z) (w : hw) (a : Z) :
  a <> b -> regs (set_reg b v w) a = regs w a.
Proof.
  intros Hab. unfold set_reg. simpl.
  destruct (Z.eqb_spec a b); [contradiction | reflexivity].
Qed.

Lemma calls_record (e : event) (w : hw) : calls (record e w) = calls w ++ [e].
Proof. reflexivity. Qed.

Lemma calls_set_reg (b v : Z) (w : hw) : calls (set_reg b v w) = calls w.
Proof. reflexivity. Qed.

(** Run the tuning sequence one access at a time; [simp] puts what was just
    read back in terms of the starting state. *)
Ltac run_open simp :=
  unfold sun50i_usb3_phy_open, execState; cbv beta zeta;
  repeat first [ rewrite exec_readl; simp
               | rewrite exec_writel
               | rewrite exec_writel_last ];
  cbn [snd].

Ltac distinct_regs := vm_compute; discriminate.

Ltac read_back :=
  repeat first [ rewrite reg_record
               | rewrite reg_set_reg_other by distinct_regs ].

Lemma tune_high_update_u32 (v : Z) : u32 (tune_high_update v) = tune_high_update v.
Proof. unfold tune_high_update. cbv zeta. apply u32_idem. Qed.

(** The tuning sequence stores [tune_high_update] of what it read. *)
Lemma open_tune_high (w : hw) :
  reg (execState sun50i_usb3_phy_open w) SUNXI_PHY_TUNE_HIGH =
    tune_high_update (reg w SUNXI_PHY_TUNE_HIGH).
Proof.
  run_open read_back.
  rewrite reg_set_reg_same.
  unfold tune_high_update. cbv zeta. rewrite !u32_idem. reflexivity.
Qed.

(** The calls of the tuning sequence, in order. *)
Lemma open_calls (w : hw) :
  exists v1 v2 v3 v4 v5,
    calls (execState sun50i_usb3_phy_open w) =
      calls w ++
        [ Readl SUNXI_PHY_EXTERNAL_CONTROL; Writel v1 SUNXI_PHY_EXTERNAL_CONTROL;
          Readl SUNXI_PIPE_CLOCK_CONTROL; Writel v2 SUNXI_PIPE_CLOCK_CONTROL;
          Readl SUNXI_ISCR; Writel v3 SUNXI_ISCR;
          Writel v4 SUNXI_PHY_TUNE_LOW;
          Readl SUNXI_PHY_TUNE_HIGH; Writel v5 SUNXI_PHY_TUNE_HIGH ].
Proof.
  do 5 eexists.
  run_open read_back.
  repeat first [ rewrite calls_set_reg | rewrite calls_record ].
  rewrite <- !app_assoc. cbn [app]. reflexivity.
Qed.

(** What the tuning sequence leaves alone: the clock, the reset line, and
    whatever lies outside the five registers. *)
Lemma open_frame (w : hw) :
  let w' := execState sun50i_usb3_phy_open w in
  clk_enabled w' = clk_enabled w /\
  reset_asserted w' = reset_asserted w /\
  clk_enable_ret w' = clk_enable_ret w /\
  reset_deassert_ret w' = reset_deassert_ret w /\
  (forall a, ~ In a register_map -> regs w' a = regs w a).
Proof.
  cbv zeta. run_open read_back.
  repeat split.
  intros a Ha. unfold register_map in Ha. cbn [In] in Ha.
  repeat first [ rewrite regs_record
               | rewrite regs_set_reg_other by (intros E; apply Ha; rewrite E; tauto) ].
  reflexivity.
Qed.

(** The accesses of the tuning sequence, in order, with what is written. *)
Lemma open_calls_stored (w : hw) :
  calls (execState sun50i_usb3_phy_open w) =
    calls w ++
      [ Readl SUNXI_PHY_EXTERNAL_CONTROL;
        Writel (u32 (u32 (Z.lor (u32 (Z.lor (reg w SUNXI_PHY_EXTERNAL_CONTROL)
                                            SUNXI_PEC_EXTERN_VBUS))
                                (Z.lor SUNXI_PEC_SSC_EN SUNXI_PEC_REF_SSP_EN))))
               SUNXI_PHY_EXTERNAL_CONTROL;
        Readl SUNXI_PIPE_CLOCK_CONTROL;
        Writel (u32 (u32 (Z.lor (reg w SUNXI_PIPE_CLOCK_CONTROL)
                                SUNXI_PCC_PIPE_CLK_OPEN)))
               SUNXI_PIPE_CLOCK_CONTROL;
        Readl SUNXI_ISCR;
        Writel (u32 (u32 (Z.lor (reg w SUNXI_ISCR) SUNXI_ISCR_FORCE_VBUS)))
               SUNXI_ISCR;
        Writel (u32 0x0047fc87) SUNXI_PHY_TUNE_LOW;
        Readl SUNXI_PHY_TUNE_HIGH;
        Writel (u32 (tune_high_update (reg w SUNXI_PHY_TUNE_HIGH)))
               SUNXI_PHY_TUNE_HIGH ].
Proof.
  run_open read_back.
  repeat first [ rewrite calls_set_reg | rewrite calls_record ].
  rewrite <- !app_assoc. cbn [app].
  unfold tune_high_update. cbv zeta. reflexivity.
Qed.

End PhyRuns.

(** ** The bits of the tune-high register *)

Section TuneHighBits.
Import Phy.

Lemma u32_testbit (x n : Z) :
  0 <= n -> Z.testbit (u32 x) n = (n <? 32) && Z.testbit x n.
Proof. intros Hn. unfold u32. apply Z.testbit_mod_pow2. lia. Qed.

Lemma u32_testbit_high (x n : Z) : 32 <= n -> Z.testbit (u32 x) n = false.
Proof.
  intros Hn. rewrite u32_testbit by lia.
  destruct (Z.ltb_spec n 32); [lia | reflexivity].
Qed.

Lemma small_testbit_high (c n : Z) :
  0 <= c < 2 ^ 32 -> 32 <= n -> Z.testbit c n = false.
Proof.
  intros Hc Hn. rewrite <- (Z.mod_small c (2 ^ 32)) by exact Hc.
  apply (u32_testbit_high c n Hn).
Qed.

(** A property of bit positions holds everywhere once it holds at each of
    the thirty-two positions of a [u32] and above them. *)
Lemma bit_positions_cover (P : Z -> Prop) :
  Forall P bit_positions ->
  (forall n, 32 <= n -> P n) ->
  forall n, 0 <= n -> P n.
Proof.
  intros Hlow Hhigh n Hn.
  destruct (Z_lt_le_dec n 32) as [Hlt | Hge]; [| apply Hhigh; exact Hge].
  rewrite Forall_forall in Hlow. apply Hlow.
  change bit_positions with (map Z.of_nat (seq 0 32)).
  apply in_map_iff. exists (Z.to_nat n). split; [lia | apply in_seq; lia].
Qed.

(** At a fixed position, push [Z.testbit] down to the one unknown value,
    name its bit, and evaluate what is left. *)
Ltac bit_of v :=
  repeat first [ rewrite Z.land_spec | rewrite Z.lor_spec
               | rewrite u32_testbit by lia ];
  repeat match goal with
         | |- context [Z.testbit v ?k] =>
             let b := fresh "b" in
             generalize (Z.testbit v k); intro b
         end;
  clear v;
  vm_compute;
  repeat match goal with b : bool |- _ => destruct b end;
  try reflexivity; try discriminate.

Ltac low_bits v :=
  unfold bit_positions;
  repeat (apply Forall_cons; [solve [bit_of v] |]); apply Forall_nil.

Ltac closed_range := vm_compute; split; [discriminate | reflexivity].

(** A field of the updated value holds the constant put there. *)
Ltac field_holds v :=
  apply Z.bits_inj'; unfold tune_high_update;
  apply bit_positions_cover;
  [ low_bits v
  | let n := fresh "n" in
    let Hn := fresh "Hn" in
    intros n Hn; rewrite Z.land_spec, u32_testbit_high by exact Hn;
    symmetry; apply small_testbit_high; [closed_range | exact Hn] ].

Lemma tune_high_txvboostlvl (v : Z) :
  Z.land (tune_high_update v) SUNXI_TXVBOOSTLVL_MASK = SUNXI_TXVBOOSTLVL 0x7.
Proof. field_holds v. Qed.

Lemma tune_high_los_bias (v : Z) :
  Z.land (tune_high_update v) SUNXI_LOS_BIAS_MASK = SUNXI_LOS_BIAS 0x7.
Proof. field_holds v. Qed.

Lemma tune_high_tx_swing_full (v : Z) :
  Z.land (tune_high_update v) SUNXI_TX_SWING_FULL_MASK = SUNXI_TX_SWING_FULL 0x55.
Proof. field_holds v. Qed.

Lemma tune_high_tx_deemph_6db (v : Z) :
  Z.land (tune_high_update v) SUNXI_TX_DEEMPH_6GB_MASK = SUNXI_TX_DEEMPH_6DB 0x20.
Proof. field_holds v. Qed.

Lemma tune_high_tx_deemph_3p5db (v : Z) :
  Z.land (tune_high_update v) SUNXI_TX_DEEMPH_3P5DB_MASK = SUNXI_TX_DEEMPH_3P5DB 0x15.
Proof. field_holds v. Qed.

(** Outside the five fields the update changes nothing of a [u32]. *)
Lemma tune_high_other_bits (v i : Z) :
  0 <= i ->
  Z.testbit TUNE_HIGH_FIELDS i = false ->
  Z.testbit (tune_high_update (u32 v)) i = Z.testbit (u32 v) i.
Proof.
  revert i. unfold tune_high_update.
  apply (bit_positions_cover
           (fun i => Z.testbit TUNE_HIGH_FIELDS i = false -> _ = _)).
  - low_bits v.
  - intros n Hn _. rewrite !u32_testbit_high by exact Hn. reflexivity.
Qed.

(** The five masks are disjoint and make up bits 0 to 24. *)
Lemma tune_high_fields_layout :
  TUNE_HIGH_FIELDS = Z.ones 25 /\
  SUNXI_TXVBOOSTLVL_MASK = Z.shiftl (Z.ones 3) 0 /\
  SUNXI_LOS_BIAS_MASK = Z.shiftl (Z.ones 3) 3 /\
  SUNXI_TX_SWING_FULL_MASK = Z.shiftl (Z.ones 7) 6 /\
  SUNXI_TX_DEEMPH_6GB_MASK = Z.shiftl (Z.ones 6) 13 /\
  SUNXI_TX_DEEMPH_3P5DB_MASK = Z.shiftl (Z.ones 6) 19.
Proof. repeat split. Qed.

Lemma u32_reg (w : hw) (a : Z) : u32 (reg w a) = reg w a.
Proof. unfold reg. apply u32_idem. Qed.

(** OR-ing two 32-bit values stays within 32 bits. *)
Lemma u32_lor (y c : Z) : u32 y = y -> u32 c = c -> u32 (Z.lor y c) = Z.lor y c.
Proof.
  intros Hy Hc. apply Z.bits_inj'. intros n Hn.
  rewrite u32_testbit by exact Hn.
  destruct (Z.ltb_spec n 32) as [Hlt | Hge]; [reflexivity |].
  rewrite Z.lor_spec, <- Hy, <- Hc, !u32_testbit_high by exact Hge.
  reflexivity.
Qed.

(** The update of the tune-high register in closed form: bits 25 to 31 are
    kept and 0x00ac157f is put below them. *)
Lemma tune_high_update_closed (v : Z) :
  tune_high_update (u32 v) = Z.lor (Z.land (u32 v) 0xfe000000) 0x00ac157f.
Proof.
  apply Z.bits_inj'. unfold tune_high_update.
  apply bit_positions_cover.
  - low_bits v.
  - intros n Hn.
    rewrite Z.lor_spec, Z.land_spec, !u32_testbit_high by exact Hn.
    rewrite (small_testbit_high 0x00ac157f n) by (closed_range || exact Hn).
    reflexivity.
Qed.

(** A field read out of a word: shift down, then mask; from the same word
    masked in place. *)
Lemma field_at (x mask pos : Z) :
  Z.land (Z.shiftr x pos) (Z.shiftr mask pos) = Z.shiftr (Z.land x mask) pos.
Proof. symmetry. apply Z.shiftr_land. Qed.

(** The five fields of the updated value, read out at their positions. *)
Lemma tune_high_fields_read (v : Z) :
  Z.land (Z.shiftr (tune_high_update v) 0) 0x7 = 0x7 /\
  Z.land (Z.shiftr (tune_high_update v) 3) 0x7 = 0x7 /\
  Z.land (Z.shiftr (tune_high_update v) 6) 0x7f = 0x55 /\
  Z.land (Z.shiftr (tune_high_update v) 13) 0x3f = 0x20 /\
  Z.land (Z.shiftr (tune_high_update v) 19) 0x3f = 0x15.
Proof.
  split; [| split; [| split; [| split]]].
  - change 0x7 with (Z.shiftr SUNXI_TXVBOOSTLVL_MASK 0) at 1.
    rewrite field_at, tune_high_txvboostlvl. reflexivity.
  - change 0x7 with (Z.shiftr SUNXI_LOS_BIAS_MASK 3) at 1.
    rewrite field_at, tune_high_los_bias. reflexivity.
  - change 0x7f with (Z.shiftr SUNXI_TX_SWING_FULL_MASK 6).
    rewrite field_at, tune_high_tx_swing_full. reflexivity.
  - change 0x3f with (Z.shiftr SUNXI_TX_DEEMPH_6GB_MASK 13).
    rewrite field_at, tune_high_tx_deemph_6db. reflexivity.
  - change 0x3f with (Z.shiftr SUNXI_TX_DEEMPH_3P5DB_MASK 19).
    rewrite field_at, tune_high_tx_deemph_3p5db. reflexivity.
Qed.

(** Bits 25 and up lie outside the five fields. *)
Lemma above_fields (i : Z) : 25 <= i -> Z.testbit TUNE_HIGH_FIELDS i = false.
Proof.
  intros Hi. change TUNE_HIGH_FIELDS with (Z.ones 25).
  apply Z.ones_spec_high. lia.
Qed.

End TuneHighBits.

(** ** Properties of the PHY driver *)

Section PhyProperties.
Import Phy.

(** C1. When the clock is enabled and the reset de-assert then fails, [init]
    returns the error of the reset controller; it has called, in this order,
    clock enable, reset de-assert and clock disable, so the clock is gated
    again when it returns; and no register was accessed: the register block
    and the reset line are as before. *)
Theorem init_reset_failure_rolls_back (w : hw) :
  clk_enable_ret w = 0 ->
  reset_deassert_ret w <> 0 ->
  let w' := execState sun50i_usb3_phy_init w in
  evalState sun50i_usb3_phy_init w = reset_deassert_ret w /\
  calls w' = calls w ++ [ClkPrepareEnable; ResetDeassert; ClkDisableUnprepare] /\
  clk_enabled w' = false /\
  regs w' = regs w /\
  reset_asserted w' = reset_asserted w.
Proof.
  intros Hclk Hrst. unfold evalState, execState. cbv zeta.
  rewrite (init_reset_failure_run w Hclk Hrst). cbn [fst snd].
  repeat split.
  unfold set_clk, record. cbn [calls]. rewrite <- !app_assoc. reflexivity.
Qed.

Lemma init_reset_failure_rolls_back_witness :
  let w := board 0 (-110) in
  let w' := execState sun50i_usb3_phy_init w in
  evalState sun50i_usb3_phy_init w = -110 /\
  calls w' = [ClkPrepareEnable; ResetDeassert; ClkDisableUnprepare] /\
  clk_enabled w' = false /\
  regs w' = regs w /\
  reset_asserted w' = true.
Proof.
  apply (init_reset_failure_rolls_back (board 0 (-110))).
  - reflexivity.
  - discriminate.
Defined.

(** C2. When the clock enable fails, [init] returns the error of the clock;
    the one call it has made is that clock enable, so the reset de-assert was
    not called and no register was read or written: registers, reset line
    and clock gate are as before. *)
Theorem init_clk_failure_touches_nothing (w : hw) :
  clk_enable_ret w <> 0 ->
  let w' := execState sun50i_usb3_phy_init w in
  evalState sun50i_usb3_phy_init w = clk_enable_ret w /\
  calls w' = calls w ++ [ClkPrepareEnable] /\
  regs w' = regs w /\
  reset_asserted w' = reset_asserted w /\
  clk_enabled w' = clk_enabled w.
Proof.
  intros Hclk. unfold evalState, execState. cbv zeta.
  rewrite (init_clk_failure_run w Hclk). cbn [fst snd].
  repeat split.
Qed.

Lemma init_clk_failure_touches_nothing_witness :
  let w := board (-2) 0 in
  let w' := execState sun50i_usb3_phy_init w in
  evalState sun50i_usb3_phy_init w = -2 /\
  calls w' = [ClkPrepareEnable] /\
  regs w' = regs w /\
  reset_asserted w' = true /\
  clk_enabled w' = false.
Proof.
  apply (init_clk_failure_touches_nothing (board (-2) 0)).
  discriminate.
Defined.

(** C3. After a successful [init], the five fields of the tune-high register
    hold 0x7 in bits 0 to 2 (TX boost level), 0x7 in bits 3 to 5
    (loss-of-signal bias), 0x55 in bits 6 to 12 (TX swing full), 0x20 in bits
    13 to 18 (6 dB de-emphasis) and 0x15 in bits 19 to 24 (3.5 dB
    de-emphasis), and every bit outside the five fields, that is from bit 25
    up, is the bit the register had before: the register holds its old value
    masked with 0xfe000000 and ORed with 0x00ac157f. The same is then said
    with the masks and macros of the driver. *)
Theorem init_tune_high_fields (w : hw) :
  clk_enable_ret w = 0 ->
  reset_deassert_ret w = 0 ->
  let old := reg w SUNXI_PHY_TUNE_HIGH in
  let new := reg (execState sun50i_usb3_phy_init w) SUNXI_PHY_TUNE_HIGH in
  evalState sun50i_usb3_phy_init w = 0 /\
  Z.land (Z.shiftr new 0) 0x7 = 0x7 /\
  Z.land (Z.shiftr new 3) 0x7 = 0x7 /\
  Z.land (Z.shiftr new 6) 0x7f = 0x55 /\
  Z.land (Z.shiftr new 13) 0x3f = 0x20 /\
  Z.land (Z.shiftr new 19) 0x3f = 0x15 /\
  (forall i, 25 <= i -> Z.testbit new i = Z.testbit old i) /\
  new = Z.lor (Z.land old 0xfe000000) 0x00ac157f /\
  Z.land new SUNXI_TXVBOOSTLVL_MASK = SUNXI_TXVBOOSTLVL 0x7 /\
  Z.land new SUNXI_LOS_BIAS_MASK = SUNXI_LOS_BIAS 0x7 /\
  Z.land new SUNXI_TX_SWING_FULL_MASK = SUNXI_TX_SWING_FULL 0x55 /\
  Z.land new SUNXI_TX_DEEMPH_6GB_MASK = SUNXI_TX_DEEMPH_6DB 0x20 /\
  Z.land new SUNXI_TX_DEEMPH_3P5DB_MASK = SUNXI_TX_DEEMPH_3P5DB 0x15 /\
  (forall i, 0 <= i -> Z.testbit TUNE_HIGH_FIELDS i = false ->
             Z.testbit new i = Z.testbit old i).
Proof.
  intros Hclk Hrst. unfold evalState, execState. cbv zeta.
  rewrite (init_success_run w Hclk Hrst). cbn [fst snd].
  rewrite open_tune_high.
  change (reg (powered w) SUNXI_PHY_TUNE_HIGH) with (reg w SUNXI_PHY_TUNE_HIGH).
  destruct (tune_high_fields_read (reg w SUNXI_PHY_TUNE_HIGH))
    as (F0 & F3 & F6 & F13 & F19).
  split; [reflexivity |].
  split; [exact F0 |]. split; [exact F3 |]. split; [exact F6 |].
  split; [exact F13 |]. split; [exact F19 |].
  split.
  { intros i Hi. unfold reg. apply tune_high_other_bits; [lia |].
    apply above_fields. exact Hi. }
  split; [unfold reg; apply tune_high_update_closed |].
  split; [apply tune_high_txvboostlvl |].
  split; [apply tune_high_los_bias |].
  split; [apply tune_high_tx_swing_full |].
  split; [apply tune_high_tx_deemph_6db |].
  split; [apply tune_high_tx_deemph_3p5db |].
  intros i Hi Hout. unfold reg. apply tune_high_other_bits; assumption.
Qed.

Lemma init_tune_high_fields_witness :
  let w := mkHw (fun _ => 0xffffffff) true 0 false 0 [] in
  let old := reg w SUNXI_PHY_TUNE_HIGH in
  let new := reg (execState sun50i_usb3_phy_init w) SUNXI_PHY_TUNE_HIGH in
  evalState sun50i_usb3_phy_init w = 0 /\
  Z.land (Z.shiftr new 0) 0x7 = 0x7 /\
  Z.land (Z.shiftr new 3) 0x7 = 0x7 /\
  Z.land (Z.shiftr new 6) 0x7f = 0x55 /\
  Z.land (Z.shiftr new 13) 0x3f = 0x20 /\
  Z.land (Z.shiftr new 19) 0x3f = 0x15 /\
  (forall i, 25 <= i -> Z.testbit new i = Z.testbit old i) /\
  new = Z.lor (Z.land old 0xfe000000) 0x00ac157f /\
  Z.land new SUNXI_TXVBOOSTLVL_MASK = SUNXI_TXVBOOSTLVL 0x7 /\
  Z.land new SUNXI_LOS_BIAS_MASK = SUNXI_LOS_BIAS 0x7 /\
  Z.land new SUNXI_TX_SWING_FULL_MASK = SUNXI_TX_SWING_FULL 0x55 /\
  Z.land new SUNXI_TX_DEEMPH_6GB_MASK = SUNXI_TX_DEEMPH_6DB 0x20 /\
  Z.land new SUNXI_TX_DEEMPH_3P5DB_MASK = SUNXI_TX_DEEMPH_3P5DB 0x15 /\
  (forall i, 0 <= i -> Z.testbit TUNE_HIGH_FIELDS i = false ->
             Z.testbit new i = Z.testbit old i).
Proof.
  apply (init_tune_high_fields (mkHw (fun _ => 0xffffffff) true 0 false 0 []));
    reflexivity.
Defined.

(** The same run, evaluated: all-ones becomes 0xfeac157f. *)
Example init_tune_high_all_ones :
  reg (execState sun50i_usb3_phy_init (mkHw (fun _ => 0xffffffff) true 0 false 0 []))
      SUNXI_PHY_TUNE_HIGH = 0xfeac157f.
Proof. vm_compute. reflexivity. Qed.

(** C4. [init] followed at once by [exit] leaves the reset line asserted and
    the clock gated, whatever the starting state and whichever way [init]
    went; the last two calls are reset assert and clock disable. *)
Theorem init_then_exit_powers_down (w : hw) :
  let w' := execState (sun50i_usb3_phy_init ;; sun50i_usb3_phy_exit) w in
  reset_asserted w' = true /\
  clk_enabled w' = false /\
  exists before, calls w' = before ++ [ResetAssert; ClkDisableUnprepare].
Proof.
  cbv zeta. rewrite execState_seq.
  generalize (execState sun50i_usb3_phy_init w). intros w1.
  unfold execState. rewrite exit_run. cbn [snd].
  split; [reflexivity |]. split; [reflexivity |].
  exists (calls w1). unfold set_clk, set_reset, record. cbn [calls].
  rewrite <- app_assoc. reflexivity.
Qed.

(** The accesses of the tuning sequence in order, with the values written
    spelled out. *)
Lemma open_calls_in_order (w : hw) :
  calls (execState sun50i_usb3_phy_open w) =
    calls w ++
      [ Readl SUNXI_PHY_EXTERNAL_CONTROL;
        Writel (Z.lor (reg w SUNXI_PHY_EXTERNAL_CONTROL) 0x05000006)
               SUNXI_PHY_EXTERNAL_CONTROL;
        Readl SUNXI_PIPE_CLOCK_CONTROL;
        Writel (Z.lor (reg w SUNXI_PIPE_CLOCK_CONTROL) 0x40)
               SUNXI_PIPE_CLOCK_CONTROL;
        Readl SUNXI_ISCR;
        Writel (Z.lor (reg w SUNXI_ISCR) 0x3000) SUNXI_ISCR;
        Writel 0x0047fc87 SUNXI_PHY_TUNE_LOW;
        Readl SUNXI_PHY_TUNE_HIGH;
        Writel (Z.lor (Z.land (reg w SUNXI_PHY_TUNE_HIGH) 0xfe000000) 0x00ac157f)
               SUNXI_PHY_TUNE_HIGH ].
Proof.
  rewrite open_calls_stored.
  assert (u32 (u32 (Z.lor (u32 (Z.lor (reg w SUNXI_PHY_EXTERNAL_CONTROL)
                                      SUNXI_PEC_EXTERN_VBUS))
                          (Z.lor SUNXI_PEC_SSC_EN SUNXI_PEC_REF_SSP_EN))) =
          Z.lor (reg w SUNXI_PHY_EXTERNAL_CONTROL) 0x05000006) as ->.
  { rewrite u32_idem.
    rewrite (u32_lor (reg w SUNXI_PHY_EXTERNAL_CONTROL) SUNXI_PEC_EXTERN_VBUS)
      by (apply u32_reg || reflexivity).
    rewrite u32_lor;
      [| apply u32_lor; [apply u32_reg | reflexivity] | reflexivity].
    rewrite <- Z.lor_assoc. reflexivity. }
  assert (u32 (u32 (Z.lor (reg w SUNXI_PIPE_CLOCK_CONTROL)
                          SUNXI_PCC_PIPE_CLK_OPEN)) =
          Z.lor (reg w SUNXI_PIPE_CLOCK_CONTROL) 0x40) as ->.
  { rewrite u32_idem. apply u32_lor; [apply u32_reg | reflexivity]. }
  assert (u32 (u32 (Z.lor (reg w SUNXI_ISCR) SUNXI_ISCR_FORCE_VBUS)) =
          Z.lor (reg w SUNXI_ISCR) 0x3000) as ->.
  { rewrite u32_idem. apply u32_lor; [apply u32_reg | reflexivity]. }
  assert (u32 (tune_high_update (reg w SUNXI_PHY_TUNE_HIGH)) =
          Z.lor (Z.land (reg w SUNXI_PHY_TUNE_HIGH) 0xfe000000) 0x00ac157f) as ->.
  { rewrite tune_high_update_u32. unfold reg. apply tune_high_update_closed. }
  reflexivity.
Qed.

(** C5, as the code has it. On the success path [init] calls clock enable
    and reset de-assert, and then the tuning sequence makes nine register
    accesses and nothing else, five writes and four reads, in this order:
    the external control register (0x20) is read and written back with
    0x05000006 set, then the pipe clock control register (0x14) with 0x40
    set, then ISCR (0x00) with 0x3000 set; the tune-low register (0x18) is
    written with 0x0047fc87 without being read; the tune-high register
    (0x1c) is read and written back with its low 25 bits replaced. The
    clock stays enabled and the reset released, and nothing outside the
    five registers changes. *)
Theorem init_tuning_accesses (w : hw) :
  clk_enable_ret w = 0 ->
  reset_deassert_ret w = 0 ->
  let w' := execState sun50i_usb3_phy_init w in
  let tuning :=
    [ Readl SUNXI_PHY_EXTERNAL_CONTROL;
      Writel (Z.lor (reg w SUNXI_PHY_EXTERNAL_CONTROL) 0x05000006)
             SUNXI_PHY_EXTERNAL_CONTROL;
      Readl SUNXI_PIPE_CLOCK_CONTROL;
      Writel (Z.lor (reg w SUNXI_PIPE_CLOCK_CONTROL) 0x40)
             SUNXI_PIPE_CLOCK_CONTROL;
      Readl SUNXI_ISCR;
      Writel (Z.lor (reg w SUNXI_ISCR) 0x3000) SUNXI_ISCR;
      Writel 0x0047fc87 SUNXI_PHY_TUNE_LOW;
      Readl SUNXI_PHY_TUNE_HIGH;
      Writel (Z.lor (Z.land (reg w SUNXI_PHY_TUNE_HIGH) 0xfe000000) 0x00ac157f)
             SUNXI_PHY_TUNE_HIGH ] in
  calls w' = calls w ++ [ClkPrepareEnable; ResetDeassert] ++ tuning /\
  map addr_of tuning =
    map Some [0x20; 0x20; 0x14; 0x14; 0x00; 0x00; 0x18; 0x1c; 0x1c] /\
  count is_write tuning = 5%nat /\
  count is_read tuning = 4%nat /\
  forallb is_mmio tuning = true /\
  map addr_of (filter is_read tuning) =
    map Some [ SUNXI_PHY_EXTERNAL_CONTROL; SUNXI_PIPE_CLOCK_CONTROL;
               SUNXI_ISCR; SUNXI_PHY_TUNE_HIGH ] /\
  map addr_of (filter is_write tuning) =
    map Some [ SUNXI_PHY_EXTERNAL_CONTROL; SUNXI_PIPE_CLOCK_CONTROL;
               SUNXI_ISCR; SUNXI_PHY_TUNE_LOW; SUNXI_PHY_TUNE_HIGH ] /\
  clk_enabled w' = true /\
  reset_asserted w' = false /\
  (forall a, ~ In a register_map -> regs w' a = regs w a).
Proof.
  intros Hclk Hrst. cbv zeta. unfold execState.
  rewrite (init_success_run w Hclk Hrst). cbn [snd].
  destruct (open_frame (powered w)) as (Hc & Hr & _ & _ & Hregs).
  split.
  { rewrite open_calls_in_order.
    unfold powered, set_reset, set_clk, record. cbn [calls].
    rewrite <- !app_assoc. cbn [app]. reflexivity. }
  repeat split; try assumption.
Qed.

Lemma init_tuning_accesses_witness :
  let w := board 0 0 in
  let w' := execState sun50i_usb3_phy_init w in
  let tuning :=
    [ Readl SUNXI_PHY_EXTERNAL_CONTROL;
      Writel (Z.lor (reg w SUNXI_PHY_EXTERNAL_CONTROL) 0x05000006)
             SUNXI_PHY_EXTERNAL_CONTROL;
      Readl SUNXI_PIPE_CLOCK_CONTROL;
      Writel (Z.lor (reg w SUNXI_PIPE_CLOCK_CONTROL) 0x40)
             SUNXI_PIPE_CLOCK_CONTROL;
      Readl SUNXI_ISCR;
      Writel (Z.lor (reg w SUNXI_ISCR) 0x3000) SUNXI_ISCR;
      Writel 0x0047fc87 SUNXI_PHY_TUNE_LOW;
      Readl SUNXI_PHY_TUNE_HIGH;
      Writel (Z.lor (Z.land (reg w SUNXI_PHY_TUNE_HIGH) 0xfe000000) 0x00ac157f)
             SUNXI_PHY_TUNE_HIGH ] in
  calls w' = calls w ++ [ClkPrepareEnable; ResetDeassert] ++ tuning /\
  map addr_of tuning =
    map Some [0x20; 0x20; 0x14; 0x14; 0x00; 0x00; 0x18; 0x1c; 0x1c] /\
  count is_write tuning = 5%nat /\
  count is_read tuning = 4%nat /\
  forallb is_mmio tuning = true /\
  map addr_of (filter is_read tuning) =
    map Some [ SUNXI_PHY_EXTERNAL_CONTROL; SUNXI_PIPE_CLOCK_CONTROL;
               SUNXI_ISCR; SUNXI_PHY_TUNE_HIGH ] /\
  map addr_of (filter is_write tuning) =
    map Some [ SUNXI_PHY_EXTERNAL_CONTROL; SUNXI_PIPE_CLOCK_CONTROL;
               SUNXI_ISCR; SUNXI_PHY_TUNE_LOW; SUNXI_PHY_TUNE_HIGH ] /\
  clk_enabled w' = true /\
  reset_asserted w' = false /\
  (forall a, ~ In a register_map -> regs w' a = regs w a).
Proof.
  apply (init_tuning_accesses (board 0 0)); reflexivity.
Defined.

(** C5, as stated, fails: on a board at rest whose clock and reset answer
    success, [init] succeeds and its calls hold five register writes but
    four register reads, not three. *)
Lemma init_tuning_three_reads_refuted :
  let w := board 0 0 in
  let w' := execState sun50i_usb3_phy_init w in
  evalState sun50i_usb3_phy_init w = 0 /\
  count is_write (calls w') = 5%nat /\
  count is_read (calls w') = 4%nat /\
  ~ (count is_write (calls w') = 5%nat /\ count is_read (calls w') = 3%nat).
Proof.
  cbv zeta. repeat split. intros [_ H]. vm_compute in H. discriminate H.
Qed.

(** C9. [exit] has no error path: from every state it returns 0, having
    called reset assert and then clock disable, in this order and nothing
    else; the reset line is asserted and the clock gated afterwards, and
    the registers are as before. *)
Theorem exit_always_succeeds (w : hw) :
  let w' := execState sun50i_usb3_phy_exit w in
  evalState sun50i_usb3_phy_exit w = 0 /\
  calls w' = calls w ++ [ResetAssert; ClkDisableUnprepare] /\
  reset_asserted w' = true /\
  clk_enabled w' = false /\
  regs w' = regs w.
Proof.
  cbv zeta. unfold evalState, execState. rewrite exit_run. cbn [fst snd].
  repeat split.
  unfold set_clk, set_reset, record. cbn [calls].
  rewrite <- app_assoc. reflexivity.
Qed.

End PhyProperties.

(** ** The formatter of pin names *)

Section PinNames.
Import Pinctrl.

Lemma put_dec_length (fuel : nat) (num : Z) (acc : list ascii) :
  (List.length (put_dec fuel num acc) <= fuel + List.length acc)%nat.
Proof.
  revert num acc. induction fuel as [| fuel IH]; intros num acc; simpl.
  - lia.
  - destruct (num / 10 =? 0); simpl.
    + lia.
    + specialize (IH (num / 10) (digit (num mod 10) :: acc)). simpl in IH. lia.
Qed.

Lemma put_dec_app (fuel : nat) (num : Z) (acc : list ascii) :
  put_dec fuel num acc = put_dec fuel num [] ++ acc.
Proof.
  revert num acc. induction fuel as [| fuel IH]; intros num acc; simpl.
  - reflexivity.
  - destruct (num / 10 =? 0).
    + reflexivity.
    + rewrite (IH (num / 10) (digit (num mod 10) :: acc)).
      rewrite (IH (num / 10) [digit (num mod 10)]).
      rewrite <- app_assoc. reflexivity.
Qed.

Lemma digit_value_digit (d : Z) : 0 <= d < 10 -> digit_value (digit d) = d.
Proof.
  intros Hd.
  assert (d = 0 \/ d = 1 \/ d = 2 \/ d = 3 \/ d = 4 \/
          d = 5 \/ d = 6 \/ d = 7 \/ d = 8 \/ d = 9) as Hcases by lia.
  repeat (destruct Hcases as [-> | Hcases]; [reflexivity |]).
  subst d. reflexivity.
Qed.

(** With a digit of fuel for each digit of the number, the loop loses
    nothing: the digits produced denote the number. *)
Lemma put_dec_value (fuel : nat) (num : Z) :
  0 <= num < 10 ^ Z.of_nat (S fuel) ->
  digits_value (put_dec (S fuel) num []) = num.
Proof.
  revert num. induction fuel as [| fuel IH]; intros num Hnum.
  - change (10 ^ Z.of_nat 1) with 10 in Hnum. simpl.
    rewrite Z.mod_small by lia.
    destruct (num / 10 =? 0); unfold digits_value; simpl;
      rewrite digit_value_digit by lia; lia.
  - change (put_dec (S (S fuel)) num [])
      with (if num / 10 =? 0 then [digit (num mod 10)]
            else put_dec (S fuel) (num / 10) [digit (num mod 10)]).
    assert (0 <= num mod 10 < 10) as Hd by (apply Z.mod_pos_bound; lia).
    destruct (Z.eqb_spec (num / 10) 0) as [Hq | Hq].
    + unfold digits_value. simpl. rewrite digit_value_digit by exact Hd.
      pose proof (Z.div_mod num 10). lia.
    + rewrite put_dec_app. unfold digits_value. rewrite fold_left_app.
      fold (digits_value (put_dec (S fuel) (num / 10) [])).
      rewrite IH.
      * cbn [fold_left]. rewrite digit_value_digit by exact Hd.
        pose proof (Z.div_mod num 10). lia.
      * rewrite Nat2Z.inj_succ, Z.pow_succ_r in Hnum by lia.
        split; [apply Z.div_pos; lia | apply Z.div_lt_upper_bound; lia].
Qed.

(** Ten digits of fuel are enough for every [u32]. *)
Lemma format_u_value (num : Z) : digits_value (format_u num) = u32 num.
Proof.
  unfold format_u. apply put_dec_value.
  assert (0 <= u32 num < 2 ^ 32) as H by (apply Z.mod_pos_bound; lia).
  change (10 ^ Z.of_nat 10) with 10000000000.
  change (2 ^ 32) with 4294967296 in H. lia.
Qed.

Lemma format_u_length (num : Z) : (List.length (format_u num) <= 10)%nat.
Proof. unfold format_u. apply (put_dec_length 10 (u32 num) []). Qed.

(** "GPIO_" and at most ten digits: fifteen characters at most, whatever the
    selector. *)
Lemma format_GPIO_u_length (selector : Z) :
  (List.length (format_GPIO_u selector) <= 15)%nat.
Proof.
  unfold format_GPIO_u. rewrite length_app.
  pose proof (format_u_length selector) as H. simpl. lia.
Qed.

Lemma digit_not_NUL (d : Z) : 0 <= d < 10 -> not_NUL (digit d).
Proof.
  intros Hd.
  assert (d = 0 \/ d = 1 \/ d = 2 \/ d = 3 \/ d = 4 \/
          d = 5 \/ d = 6 \/ d = 7 \/ d = 8 \/ d = 9) as Hcases by lia.
  repeat (destruct Hcases as [-> | Hcases]; [reflexivity |]).
  subst d. reflexivity.
Qed.

Lemma put_dec_not_NUL (fuel : nat) (num : Z) (acc : list ascii) :
  Forall not_NUL acc -> Forall not_NUL (put_dec fuel num acc).
Proof.
  revert num acc. induction fuel as [| fuel IH]; intros num acc Hacc; simpl.
  - exact Hacc.
  - assert (Forall not_NUL (digit (num mod 10) :: acc)) as Hacc'.
    { constructor; [| exact Hacc].
      apply digit_not_NUL. apply Z.mod_pos_bound. lia. }
    destruct (num / 10 =? 0); [exact Hacc' | apply IH; exact Hacc'].
Qed.

Lemma format_GPIO_u_not_NUL (selector : Z) :
  Forall not_NUL (format_GPIO_u selector).
Proof.
  unfold format_GPIO_u. apply Forall_app. split.
  - repeat constructor.
  - apply put_dec_not_NUL. constructor.
Qed.

(** Reading back a NUL-terminated run of characters gives the run. *)
Lemma cstr_terminated (out rest : list ascii) :
  Forall not_NUL out ->
  cstr (out ++ NUL :: rest) = string_of_list_ascii out.
Proof.
  induction 1 as [| c out Hc _ IH]; simpl.
  - reflexivity.
  - unfold not_NUL in Hc. rewrite Hc, IH. reflexivity.
Qed.

(** [snprintf] into [MAX_PIN_NAME_LEN] bytes stores the whole name. *)
Lemma snprintf_GPIO_u_whole (buf : list ascii) (selector : Z) :
  snprintf_GPIO_u buf MAX_PIN_NAME_LEN selector =
    (Z.of_nat (List.length (format_GPIO_u selector)),
     format_GPIO_u selector ++
       NUL :: skipn (S (List.length (format_GPIO_u selector))) buf).
Proof.
  unfold snprintf_GPIO_u.
  pose proof (format_GPIO_u_length selector) as Hlen.
  change (Z.to_nat (MAX_PIN_NAME_LEN - 1)) with 31%nat.
  change (MAX_PIN_NAME_LEN <=? 0) with false. cbv iota.
  rewrite firstn_all2 by lia. reflexivity.
Qed.

(** On the selectors of the GPIO pins the formatter agrees with the
    standard decimal printer. *)
Lemma format_GPIO_u_decimal_checked :
  forallb (fun s => String.eqb (string_of_list_ascii (format_GPIO_u s))
                               ("GPIO_" ++ decimal s)%string)
          gpio_selectors = true.
Proof. vm_compute. reflexivity. Qed.

Lemma format_GPIO_u_decimal (s : Z) :
  0 <= s < 150 ->
  string_of_list_ascii (format_GPIO_u s) = ("GPIO_" ++ decimal s)%string.
Proof.
  intros Hs. apply String.eqb_eq.
  pose proof format_GPIO_u_decimal_checked as Hall.
  rewrite forallb_forall in Hall. apply Hall.
  change gpio_selectors with (map Z.of_nat (seq 0 150)).
  apply in_map_iff. exists (Z.to_nat s). split; [lia | apply in_seq; lia].
Qed.

End PinNames.

(** ** Properties of the pin-control driver *)

Section PinctrlProperties.
Import Pinctrl.

(** C6. For a selector below 150, [get_pin_name] returns the static buffer,
    and the string found there is "GPIO_" followed by the selector in
    decimal, whatever the buffer held before. *)
Theorem get_pin_name_gpio (s : Z) (pin_name : list ascii) :
  0 <= s < 150 ->
  exists pin_name',
    get_pin_name apq8096_data s pin_name = Some (Ptr_pin_name, pin_name') /\
    deref Ptr_pin_name pin_name' = ("GPIO_" ++ decimal s)%string.
Proof.
  intros Hs. cbn [get_pin_name apq8096_data]. unfold apq8096_get_pin_name.
  destruct (Z.ltb_spec s 150) as [_ | Hge]; [| lia].
  rewrite snprintf_GPIO_u_whole. eexists. split; [reflexivity |].
  cbn [deref]. rewrite cstr_terminated by apply format_GPIO_u_not_NUL.
  apply format_GPIO_u_decimal. exact Hs.
Qed.

Lemma get_pin_name_gpio_witness :
  exists pin_name',
    get_pin_name apq8096_data 42 fresh_pin_name = Some (Ptr_pin_name, pin_name') /\
    deref Ptr_pin_name pin_name' = ("GPIO_" ++ decimal 42)%string.
Proof.
  apply (get_pin_name_gpio 42 fresh_pin_name). lia.
Defined.

(** C7. For a selector from 150 to 156, [get_pin_name] returns the literal
    at index [s - 150] of the table of named pins and leaves the buffer
    alone; 150 gives "SDC1_CLK" and 156 gives "SDC1_RCLK". *)
Theorem get_pin_name_named (s : Z) (pin_name : list ascii) :
  150 <= s < 157 ->
  (exists lit,
      nth_error msm_pinctrl_pins (Z.to_nat (s - 150)) = Some lit /\
      get_pin_name apq8096_data s pin_name = Some (Ptr_literal lit, pin_name) /\
      pin_name_string s pin_name = Some lit) /\
  pin_name_string 150 pin_name = Some "SDC1_CLK"%string /\
  pin_name_string 156 pin_name = Some "SDC1_RCLK"%string.
Proof.
  intros Hs. split; [| split; reflexivity].
  assert (s = 150 \/ s = 151 \/ s = 152 \/ s = 153 \/
          s = 154 \/ s = 155 \/ s = 156) as Hcases by lia.
  repeat (destruct Hcases as [-> | Hcases];
          [eexists; repeat split; reflexivity |]).
  subst s. eexists. repeat split; reflexivity.
Qed.

Lemma get_pin_name_named_witness :
  (exists lit,
      nth_error msm_pinctrl_pins (Z.to_nat (153 - 150)) = Some lit /\
      get_pin_name apq8096_data 153 fresh_pin_name =
        Some (Ptr_literal lit, fresh_pin_name) /\
      pin_name_string 153 fresh_pin_name = Some lit) /\
  pin_name_string 150 fresh_pin_name = Some "SDC1_CLK"%string /\
  pin_name_string 156 fresh_pin_name = Some "SDC1_RCLK"%string.
Proof.
  apply (get_pin_name_named 153 fresh_pin_name). lia.
Defined.

(** C8. The constants of the table: function 0 is "blsp_uart8" with mux
    value 2, there are 157 pins and one function. *)
Theorem apq8096_data_constants :
  get_function_name apq8096_data 0 = Some "blsp_uart8"%string /\
  get_function_mux apq8096_data 0 = Some 2 /\
  pin_count apq8096_data = 157 /\
  functions_count apq8096_data = 1.
Proof. repeat split. Qed.

(** C10. The name of a GPIO pin has at most 5 + 10 = 15 characters, whatever
    the 32-bit selector, which is less than the 32 bytes of the buffer. So
    for a selector below 150 [snprintf] reports a length below the size it
    was given (nothing was cut), the buffer keeps its 32 bytes and holds the
    whole name followed by a NUL, and the string read back is "GPIO_"
    followed by the selector in decimal. *)
Theorem gpio_name_fits (s : Z) (pin_name : list ascii) :
  0 <= s < 150 ->
  List.length pin_name = Z.to_nat MAX_PIN_NAME_LEN ->
  let out := format_GPIO_u s in
  let n := fst (snprintf_GPIO_u pin_name MAX_PIN_NAME_LEN s) in
  let pin_name' := snd (snprintf_GPIO_u pin_name MAX_PIN_NAME_LEN s) in
  (forall u, Z.of_nat (List.length (format_GPIO_u u)) <= 5 + 10) /\
  5 + 10 < MAX_PIN_NAME_LEN /\
  n = Z.of_nat (List.length out) /\
  n < MAX_PIN_NAME_LEN /\
  List.length pin_name' = Z.to_nat MAX_PIN_NAME_LEN /\
  firstn (List.length out) pin_name' = out /\
  nth_error pin_name' (List.length out) = Some NUL /\
  get_pin_name apq8096_data s pin_name = Some (Ptr_pin_name, pin_name') /\
  cstr pin_name' = ("GPIO_" ++ decimal s)%string.
Proof.
  intros Hs Hbuf. cbv zeta.
  cbn [get_pin_name apq8096_data]. unfold apq8096_get_pin_name.
  destruct (Z.ltb_spec s 150) as [_ | Hge]; [| lia].
  rewrite snprintf_GPIO_u_whole. cbn [fst snd].
  pose proof (format_GPIO_u_length s) as Hlen.
  change (Z.to_nat MAX_PIN_NAME_LEN) with 32%nat in *.
  split; [intros u; pose proof (format_GPIO_u_length u); lia |].
  split; [reflexivity |].
  split; [reflexivity |].
  split; [unfold MAX_PIN_NAME_LEN; lia |].
  split.
  { rewrite length_app. cbn [List.length]. rewrite length_skipn. lia. }
  split.
  { rewrite firstn_app, Nat.sub_diag, firstn_all. cbn [firstn].
    apply app_nil_r. }
  split.
  { rewrite nth_error_app2 by lia. rewrite Nat.sub_diag. reflexivity. }
  split; [reflexivity |].
  rewrite cstr_terminated by apply format_GPIO_u_not_NUL.
  apply format_GPIO_u_decimal. exact Hs.
Qed.

Lemma gpio_name_fits_witness :
  let s := 149 in
  let pin_name := fresh_pin_name in
  let out := format_GPIO_u s in
  let n := fst (snprintf_GPIO_u pin_name MAX_PIN_NAME_LEN s) in
  let pin_name' := snd (snprintf_GPIO_u pin_name MAX_PIN_NAME_LEN s) in
  (forall u, Z.of_nat (List.length (format_GPIO_u u)) <= 5 + 10) /\
  5 + 10 < MAX_PIN_NAME_LEN /\
  n = Z.of_nat (List.length out) /\
  n < MAX_PIN_NAME_LEN /\
  List.length pin_name' = Z.to_nat MAX_PIN_NAME_LEN /\
  firstn (List.length out) pin_name' = out /\
  nth_error pin_name' (List.length out) = Some NUL /\
  get_pin_name apq8096_data s pin_name = Some (Ptr_pin_name, pin_name') /\
  cstr pin_name' = ("GPIO_" ++ decimal s)%string.
Proof.
  apply (gpio_name_fits 149 fresh_pin_name).
  - lia.
  - reflexivity.
Defined.

End PinctrlProperties.

(** ** Properties of the probe *)

Section ProbeProperties.
Import Probe.

Lemma probe_clk_failure_run (d : udevice) :
  clk_get_ret d <> 0 ->
  runState sun50i_usb3_phy_probe d =
    (clk_get_ret d,
     note (DevErr ("failed to get phy clock" ++ LF)) (note (ClkGetByIndex 0) d)).
Proof.
  intros Hclk. unfold sun50i_usb3_phy_probe, clk_get_by_index. simpl.
  destruct (Z.eqb_spec (clk_get_ret d) 0) as [E | _]; [contradiction |].
  simpl. destruct (Z.eqb_spec (clk_get_ret d) 0) as [E | _]; [contradiction |].
  reflexivity.
Qed.

Lemma probe_reset_failure_run (d : udevice) :
  clk_get_ret d = 0 ->
  reset_get_ret d <> 0 ->
  runState sun50i_usb3_phy_probe d =
    (reset_get_ret d,
     note (DevErr ("failed to get reset control" ++ LF))
          (note (ResetGetByIndex 0) (set_priv_clk (note (ClkGetByIndex 0) d)))).
Proof.
  intros Hclk Hrst.
  unfold sun50i_usb3_phy_probe, clk_get_by_index, reset_get_by_index. simpl.
  rewrite Hclk. simpl.
  destruct (Z.eqb_spec (reset_get_ret d) 0) as [E | _]; [contradiction |].
  simpl. destruct (Z.eqb_spec (reset_get_ret d) 0) as [E | _]; [contradiction |].
  reflexivity.
Qed.

Lemma probe_addr_run (d : udevice) :
  clk_get_ret d = 0 ->
  reset_get_ret d = 0 ->
  runState sun50i_usb3_phy_probe d =
    (if addr_ptr d =? 0 then - EINVAL else 0,
     set_priv_regs (addr_ptr d)
       (note DevReadAddrPtr
          (set_priv_reset
             (note (ResetGetByIndex 0)
                (set_priv_clk (note (ClkGetByIndex 0) d)))))).
Proof.
  intros Hclk Hrst.
  unfold sun50i_usb3_phy_probe, clk_get_by_index, reset_get_by_index,
    dev_read_addr_ptr. simpl.
  rewrite Hclk. simpl. rewrite Hrst. simpl.
  destruct (addr_ptr d =? 0); reflexivity.
Qed.

(** X7. The probe reports success exactly when the clock and the reset were
    found and the device has a register base. *)
Theorem probe_succeeds_iff (d : udevice) :
  evalState sun50i_usb3_phy_probe d = 0 <->
  clk_get_ret d = 0 /\ reset_get_ret d = 0 /\ addr_ptr d <> 0.
Proof.
  unfold evalState.
  destruct (Z.eq_dec (clk_get_ret d) 0) as [Hclk | Hclk].
  - destruct (Z.eq_dec (reset_get_ret d) 0) as [Hrst | Hrst].
    + rewrite (probe_addr_run d Hclk Hrst). cbn [fst].
      destruct (Z.eqb_spec (addr_ptr d) 0) as [Ha | Ha].
      * split; [intros H; discriminate H | intros (_ & _ & H); contradiction].
      * split; [intros _; auto | reflexivity].
    + rewrite (probe_reset_failure_run d Hclk Hrst). cbn [fst].
      split; [intros H; contradiction | intros (_ & H & _); contradiction].
  - rewrite (probe_clk_failure_run d Hclk). cbn [fst].
    split; [intros H; contradiction | intros (H & _); contradiction].
Qed.

(** X8. After a successful probe the private data is complete: both handles are
    filled in, [priv->regs] is the register base of the device and is not
    NULL; the three lookups were made in the order clock, reset, base, and
    nothing was reported. *)
Theorem probe_success_fills_priv (d : udevice) :
  clk_get_ret d = 0 ->
  reset_get_ret d = 0 ->
  addr_ptr d <> 0 ->
  let d' := execState sun50i_usb3_phy_probe d in
  evalState sun50i_usb3_phy_probe d = 0 /\
  priv_clk d' = true /\
  priv_reset d' = true /\
  priv_regs d' = addr_ptr d /\
  priv_regs d' <> 0 /\
  probe_calls d' =
    probe_calls d ++ [ClkGetByIndex 0; ResetGetByIndex 0; DevReadAddrPtr].
Proof.
  intros Hclk Hrst Haddr. cbv zeta. unfold evalState, execState.
  rewrite (probe_addr_run d Hclk Hrst). cbn [fst snd].
  destruct (Z.eqb_spec (addr_ptr d) 0) as [E | _]; [contradiction |].
  repeat split; try assumption.
  unfold set_priv_regs, set_priv_reset, set_priv_clk, note. cbn [probe_calls].
  rewrite <- !app_assoc. reflexivity.
Qed.

Lemma probe_success_fills_priv_witness :
  let d := bound 0 0 0x5210000 in
  let d' := execState sun50i_usb3_phy_probe d in
  evalState sun50i_usb3_phy_probe d = 0 /\
  priv_clk d' = true /\
  priv_reset d' = true /\
  priv_regs d' = addr_ptr d /\
  priv_regs d' <> 0 /\
  probe_calls d' =
    probe_calls d ++ [ClkGetByIndex 0; ResetGetByIndex 0; DevReadAddrPtr].
Proof.
  apply (probe_success_fills_priv (bound 0 0 0x5210000)).
  - reflexivity.
  - reflexivity.
  - discriminate.
Defined.

(** X9. When the clock is not found the probe returns the error it got, reports
    "failed to get phy clock", and asks for nothing more: neither the reset
    nor the register base is looked up, whatever they would have answered,
    and the private data is as before. *)
Theorem probe_clk_failure_stops (d : udevice) :
  clk_get_ret d <> 0 ->
  let d' := execState sun50i_usb3_phy_probe d in
  evalState sun50i_usb3_phy_probe d = clk_get_ret d /\
  probe_calls d' =
    probe_calls d ++
      [ClkGetByIndex 0; DevErr ("failed to get phy clock" ++ LF)] /\
  priv_clk d' = priv_clk d /\
  priv_reset d' = priv_reset d /\
  priv_regs d' = priv_regs d.
Proof.
  intros Hclk. cbv zeta. unfold evalState, execState.
  rewrite (probe_clk_failure_run d Hclk). cbn [fst snd].
  repeat split.
  unfold note. cbn [probe_calls]. rewrite <- !app_assoc. reflexivity.
Qed.

Lemma probe_clk_failure_stops_witness :
  let d := bound (-2) (-19) 0 in
  let d' := execState sun50i_usb3_phy_probe d in
  evalState sun50i_usb3_phy_probe d = clk_get_ret d /\
  probe_calls d' =
    probe_calls d ++
      [ClkGetByIndex 0; DevErr ("failed to get phy clock" ++ LF)] /\
  priv_clk d' = priv_clk d /\
  priv_reset d' = priv_reset d /\
  priv_regs d' = priv_regs d.
Proof.
  apply (probe_clk_failure_stops (bound (-2) (-19) 0)). discriminate.
Defined.

(** X10. When the clock is found and the reset is not, the probe returns the
    error of the reset lookup and reports "failed to get reset control"; the
    register base is never read, and the clock handle stays filled in:
    nothing is given back. *)
Theorem probe_reset_failure_keeps_clk (d : udevice) :
  clk_get_ret d = 0 ->
  reset_get_ret d <> 0 ->
  let d' := execState sun50i_usb3_phy_probe d in
  evalState sun50i_usb3_phy_probe d = reset_get_ret d /\
  probe_calls d' =
    probe_calls d ++
      [ClkGetByIndex 0; ResetGetByIndex 0;
       DevErr ("failed to get reset control" ++ LF)] /\
  priv_clk d' = true /\
  priv_reset d' = priv_reset d /\
  priv_regs d' = priv_regs d.
Proof.
  intros Hclk Hrst. cbv zeta. unfold evalState, execState.
  rewrite (probe_reset_failure_run d Hclk Hrst). cbn [fst snd].
  repeat split.
  unfold note, set_priv_clk. cbn [probe_calls].
  rewrite <- !app_assoc. reflexivity.
Qed.

Lemma probe_reset_failure_keeps_clk_witness :
  let d := bound 0 (-19) 0x5210000 in
  let d' := execState sun50i_usb3_phy_probe d in
  evalState sun50i_usb3_phy_probe d = reset_get_ret d /\
  probe_calls d' =
    probe_calls d ++
      [ClkGetByIndex 0; ResetGetByIndex 0;
       DevErr ("failed to get reset control" ++ LF)] /\
  priv_clk d' = true /\
  priv_reset d' = priv_reset d /\
  priv_regs d' = priv_regs d.
Proof.
  apply (probe_reset_failure_keeps_clk (bound 0 (-19) 0x5210000)).
  - reflexivity.
  - discriminate.
Defined.

(** X11. When clock and reset are found but the device has no register base, the
    probe returns -EINVAL and reports nothing: no [dev_err] is among its
    calls. [priv->regs] is NULL and both handles stay filled in. *)
Theorem probe_missing_base_is_silent (d : udevice) :
  clk_get_ret d = 0 ->
  reset_get_ret d = 0 ->
  addr_ptr d = 0 ->
  let d' := execState sun50i_usb3_phy_probe d in
  evalState sun50i_usb3_phy_probe d = - EINVAL /\
  probe_calls d' =
    probe_calls d ++ [ClkGetByIndex 0; ResetGetByIndex 0; DevReadAddrPtr] /\
  priv_regs d' = 0 /\
  priv_clk d' = true /\
  priv_reset d' = true.
Proof.
  intros Hclk Hrst Haddr. cbv zeta. unfold evalState, execState.
  rewrite (probe_addr_run d Hclk Hrst). cbn [fst snd].
  rewrite Haddr. cbn [Z.eqb].
  repeat split.
  unfold set_priv_regs, set_priv_reset, set_priv_clk, note. cbn [probe_calls].
  rewrite <- !app_assoc. reflexivity.
Qed.

Lemma probe_missing_base_is_silent_witness :
  let d := bound 0 0 0 in
  let d' := execState sun50i_usb3_phy_probe d in
  evalState sun50i_usb3_phy_probe d = - EINVAL /\
  probe_calls d' =
    probe_calls d ++ [ClkGetByIndex 0; ResetGetByIndex 0; DevReadAddrPtr] /\
  priv_regs d' = 0 /\
  priv_clk d' = true /\
  priv_reset d' = true.
Proof.
  apply (probe_missing_base_is_silent (bound 0 0 0)); reflexivity.
Defined.

End ProbeProperties.

(** ** More on the PHY driver: what init stores, and how it composes *)

Section PhyComposition.
Import Phy PhyCalls.

Ltac run_open simp :=
  unfold sun50i_usb3_phy_open, execState; cbv beta zeta;
  repeat first [ rewrite exec_readl; simp
               | rewrite exec_writel
               | rewrite exec_writel_last ];
  cbn [snd].

Ltac distinct_regs := vm_compute; discriminate.

Ltac read_back :=
  repeat first [ rewrite reg_record
               | rewrite reg_set_reg_other by distinct_regs ].

Lemma open_external_control (w : hw) :
  reg (execState sun50i_usb3_phy_open w) SUNXI_PHY_EXTERNAL_CONTROL =
    Z.lor (Z.lor (reg w SUNXI_PHY_EXTERNAL_CONTROL) SUNXI_PEC_EXTERN_VBUS)
          (Z.lor SUNXI_PEC_SSC_EN SUNXI_PEC_REF_SSP_EN).
Proof.
  run_open read_back. read_back. rewrite reg_set_reg_same.
  rewrite !u32_idem.
  rewrite (u32_lor (reg w SUNXI_PHY_EXTERNAL_CONTROL) SUNXI_PEC_EXTERN_VBUS)
    by (apply u32_reg || reflexivity).
  apply u32_lor; [| reflexivity].
  apply u32_lor; [apply u32_reg | reflexivity].
Qed.

Lemma open_pipe_clock_control (w : hw) :
  reg (execState sun50i_usb3_phy_open w) SUNXI_PIPE_CLOCK_CONTROL =
    Z.lor (reg w SUNXI_PIPE_CLOCK_CONTROL) SUNXI_PCC_PIPE_CLK_OPEN.
Proof.
  run_open read_back. read_back. rewrite reg_set_reg_same.
  rewrite !u32_idem. apply u32_lor; [apply u32_reg | reflexivity].
Qed.

Lemma open_iscr (w : hw) :
  reg (execState sun50i_usb3_phy_open w) SUNXI_ISCR =
    Z.lor (reg w SUNXI_ISCR) SUNXI_ISCR_FORCE_VBUS.
Proof.
  run_open read_back. read_back. rewrite reg_set_reg_same.
  rewrite !u32_idem. apply u32_lor; [apply u32_reg | reflexivity].
Qed.

Lemma open_tune_low (w : hw) :
  reg (execState sun50i_usb3_phy_open w) SUNXI_PHY_TUNE_LOW = 0x0047fc87.
Proof.
  run_open read_back. read_back. rewrite reg_set_reg_same. reflexivity.
Qed.


(** X1. [init] reports success exactly when the clock was enabled and the reset
    released: it has no failure of its own. *)
Theorem init_succeeds_iff (w : hw) :
  evalState sun50i_usb3_phy_init w = 0 <->
  clk_enable_ret w = 0 /\ reset_deassert_ret w = 0.
Proof.
  unfold evalState.
  destruct (Z.eq_dec (clk_enable_ret w) 0) as [Hclk | Hclk].
  - destruct (Z.eq_dec (reset_deassert_ret w) 0) as [Hrst | Hrst].
    + rewrite (init_success_run w Hclk Hrst). cbn [fst]. tauto.
    + rewrite (init_reset_failure_run w Hclk Hrst). cbn [fst]. tauto.
  - rewrite (init_clk_failure_run w Hclk). cbn [fst]. tauto.
Qed.

(** X2. Whenever [init] returns an error, whichever it is, the register block
    was not accessed: no [readl] and no [writel] is among the calls it made
    and the registers are as before; and a clock that was gated before is
    gated afterwards. *)
Theorem init_error_leaves_registers (w : hw) :
  evalState sun50i_usb3_phy_init w <> 0 ->
  let w' := execState sun50i_usb3_phy_init w in
  regs w' = regs w /\
  (exists made, calls w' = calls w ++ made /\ count is_mmio made = 0%nat) /\
  (clk_enabled w = false -> clk_enabled w' = false).
Proof.
  intros Herr. cbv zeta. unfold evalState, execState in *.
  destruct (Z.eq_dec (clk_enable_ret w) 0) as [Hclk | Hclk].
  - destruct (Z.eq_dec (reset_deassert_ret w) 0) as [Hrst | Hrst].
    + rewrite (init_success_run w Hclk Hrst) in Herr. cbn [fst] in Herr.
      contradiction.
    + rewrite (init_reset_failure_run w Hclk Hrst). cbn [snd].
      split; [reflexivity |]. split; [| reflexivity].
      exists [ClkPrepareEnable; ResetDeassert; ClkDisableUnprepare].
      split; [| reflexivity].
      unfold set_clk, record. cbn [calls]. rewrite <- !app_assoc. reflexivity.
  - rewrite (init_clk_failure_run w Hclk). cbn [snd].
    split; [reflexivity |]. split; [| intros H; exact H].
    exists [ClkPrepareEnable]. split; reflexivity.
Qed.

Lemma init_error_leaves_registers_witness :
  let w := board_with 0xdeadbeef false true 0 (-110) in
  let w' := execState sun50i_usb3_phy_init w in
  regs w' = regs w /\
  (exists made, calls w' = calls w ++ made /\ count is_mmio made = 0%nat) /\
  (clk_enabled w = false -> clk_enabled w' = false).
Proof.
  apply (init_error_leaves_registers (board_with 0xdeadbeef false true 0 (-110))).
  vm_compute. discriminate.
Defined.

(** X3. After a successful [init] the three control registers hold what they
    held before with the enable bits set on top (external VBUS, spread
    spectrum and reference clock; pipe clock open; force VBUS), no other bit
    of them changed, and the tune-low register holds 0x0047fc87 whatever it
    held before. *)
Theorem init_sets_enable_bits (w : hw) :
  clk_enable_ret w = 0 ->
  reset_deassert_ret w = 0 ->
  let w' := execState sun50i_usb3_phy_init w in
  reg w' SUNXI_PHY_EXTERNAL_CONTROL =
    Z.lor (Z.lor (reg w SUNXI_PHY_EXTERNAL_CONTROL) SUNXI_PEC_EXTERN_VBUS)
          (Z.lor SUNXI_PEC_SSC_EN SUNXI_PEC_REF_SSP_EN) /\
  reg w' SUNXI_PIPE_CLOCK_CONTROL =
    Z.lor (reg w SUNXI_PIPE_CLOCK_CONTROL) SUNXI_PCC_PIPE_CLK_OPEN /\
  reg w' SUNXI_ISCR = Z.lor (reg w SUNXI_ISCR) SUNXI_ISCR_FORCE_VBUS /\
  reg w' SUNXI_PHY_TUNE_LOW = 0x0047fc87.
Proof.
  intros Hclk Hrst. cbv zeta. unfold execState.
  rewrite (init_success_run w Hclk Hrst). cbn [snd].
  rewrite open_external_control, open_pipe_clock_control, open_iscr,
    open_tune_low.
  repeat split.
Qed.

Lemma init_sets_enable_bits_witness :
  let w := board_with 0x80000001 false true 0 0 in
  let w' := execState sun50i_usb3_phy_init w in
  reg w' SUNXI_PHY_EXTERNAL_CONTROL =
    Z.lor (Z.lor (reg w SUNXI_PHY_EXTERNAL_CONTROL) SUNXI_PEC_EXTERN_VBUS)
          (Z.lor SUNXI_PEC_SSC_EN SUNXI_PEC_REF_SSP_EN) /\
  reg w' SUNXI_PIPE_CLOCK_CONTROL =
    Z.lor (reg w SUNXI_PIPE_CLOCK_CONTROL) SUNXI_PCC_PIPE_CLK_OPEN /\
  reg w' SUNXI_ISCR = Z.lor (reg w SUNXI_ISCR) SUNXI_ISCR_FORCE_VBUS /\
  reg w' SUNXI_PHY_TUNE_LOW = 0x0047fc87.
Proof.
  apply (init_sets_enable_bits (board_with 0x80000001 false true 0 0));
    reflexivity.
Defined.

(** *** Running [init] again *)

Ltac bit_of v :=
  repeat first [ rewrite Z.land_spec | rewrite Z.lor_spec
               | rewrite u32_testbit by lia ];
  repeat match goal with
         | |- context [Z.testbit v ?k] =>
             let b := fresh "b" in
             generalize (Z.testbit v k); intro b
         end;
  clear v;
  vm_compute;
  repeat match goal with b : bool |- _ => destruct b end;
  try reflexivity; try discriminate.

Ltac low_bits v :=
  unfold bit_positions;
  repeat (apply Forall_cons; [solve [bit_of v] |]); apply Forall_nil.




Lemma init_success_exec (w : hw) :
  clk_enable_ret w = 0 ->
  reset_deassert_ret w = 0 ->
  execState sun50i_usb3_phy_init w = execState sun50i_usb3_phy_open (powered w).
Proof.
  intros Hclk Hrst. unfold execState at 1.
  rewrite (init_success_run w Hclk Hrst). reflexivity.
Qed.





(** *** [init] followed by [exit] *)

Lemma calls_set_clk (b : bool) (w : hw) : calls (set_clk b w) = calls w.
Proof. reflexivity. Qed.

Lemma calls_set_reset (b : bool) (w : hw) : calls (set_reset b w) = calls w.
Proof. reflexivity. Qed.

Ltac calls_made :=
  unfold powered;
  repeat first [ rewrite calls_set_clk | rewrite calls_set_reset
               | rewrite calls_record ];
  rewrite <- ?app_assoc; cbn [app].

(** X5. A successful [init] followed by [exit] is balanced and keeps the tuning:
    among the calls made there is one clock enable and one clock disable, one
    reset de-assert and one reset assert, and every register reads after
    [exit] what it read after [init]: [exit] undoes none of the register
    writes. *)
Theorem power_cycle_is_balanced (w : hw) :
  clk_enable_ret w = 0 ->
  reset_deassert_ret w = 0 ->
  let up := execState sun50i_usb3_phy_init w in
  let down := execState (sun50i_usb3_phy_init ;; sun50i_usb3_phy_exit) w in
  (exists made,
      calls down = calls w ++ made /\
      count is_enable made = 1%nat /\
      count is_disable made = 1%nat /\
      count is_deassert made = 1%nat /\
      count is_assert made = 1%nat) /\
  (forall a, reg down a = reg up a).
Proof.
  intros Hclk Hrst. cbv zeta. rewrite execState_seq.
  rewrite (init_success_exec w Hclk Hrst).
  destruct (open_calls (powered w)) as (v1 & v2 & v3 & v4 & v5 & Hcalls).
  generalize dependent (execState sun50i_usb3_phy_open (powered w)).
  intros w1 Hcalls.
  unfold execState. rewrite exit_run. cbn [snd].
  split; [| intros a; reflexivity].
  eexists. split.
  - calls_made. rewrite Hcalls. calls_made. reflexivity.
  - repeat split.
Qed.

Lemma power_cycle_is_balanced_witness :
  let w := board_with 0 false true 0 0 in
  let up := execState sun50i_usb3_phy_init w in
  let down := execState (sun50i_usb3_phy_init ;; sun50i_usb3_phy_exit) w in
  (exists made,
      calls down = calls w ++ made /\
      count is_enable made = 1%nat /\
      count is_disable made = 1%nat /\
      count is_deassert made = 1%nat /\
      count is_assert made = 1%nat) /\
  (forall a, reg down a = reg up a).
Proof.
  apply (power_cycle_is_balanced (board_with 0 false true 0 0)); reflexivity.
Defined.

(** X6. [exit] does not know how [init] went. After an [init] that failed at the
    reset de-assert, [exit] asserts the reset and disables the clock once
    more: the clock was enabled once and is disabled twice, first by the
    rollback of [init], then by [exit]; the registers are untouched
    throughout. *)
Theorem exit_after_reset_failure_disables_again (w : hw) :
  clk_enable_ret w = 0 ->
  reset_deassert_ret w <> 0 ->
  let down := execState (sun50i_usb3_phy_init ;; sun50i_usb3_phy_exit) w in
  calls down =
    calls w ++ [ClkPrepareEnable; ResetDeassert; ClkDisableUnprepare;
                ResetAssert; ClkDisableUnprepare] /\
  regs down = regs w /\
  clk_enabled down = false /\
  reset_asserted down = true.
Proof.
  intros Hclk Hrst. cbv zeta. rewrite execState_seq.
  unfold execState. rewrite (init_reset_failure_run w Hclk Hrst). cbn [snd].
  rewrite exit_run. cbn [snd].
  split; [calls_made; reflexivity |].
  repeat split.
Qed.

Lemma exit_after_reset_failure_disables_again_witness :
  let w := board_with 0x1234 false true 0 (-110) in
  let down := execState (sun50i_usb3_phy_init ;; sun50i_usb3_phy_exit) w in
  calls down =
    calls w ++ [ClkPrepareEnable; ResetDeassert; ClkDisableUnprepare;
                ResetAssert; ClkDisableUnprepare] /\
  regs down = regs w /\
  clk_enabled down = false /\
  reset_asserted down = true.
Proof.
  apply (exit_after_reset_failure_disables_again
           (board_with 0x1234 false true 0 (-110))).
  - reflexivity.
  - discriminate.
Defined.

End PhyComposition.

(** ** More on the pin-control driver: valid selectors, the shared buffer *)

Section PinctrlLookups.
Import Pinctrl.

Lemma get_pin_name_gpio_run (s : Z) (pin_name : list ascii) :
  s < 150 ->
  apq8096_get_pin_name s pin_name =
    Some (Ptr_pin_name,
          format_GPIO_u s ++
            NUL :: skipn (S (List.length (format_GPIO_u s))) pin_name).
Proof.
  intros Hs. unfold apq8096_get_pin_name.
  destruct (Z.ltb_spec s 150) as [_ | Hge]; [| lia].
  rewrite snprintf_GPIO_u_whole. reflexivity.
Qed.

Lemma get_pin_name_table_run (s : Z) (pin_name : list ascii) :
  150 <= s < 2 ^ 32 ->
  apq8096_get_pin_name s pin_name =
    match nth_error msm_pinctrl_pins (Z.to_nat (s - 150)) with
    | Some lit => Some (Ptr_literal lit, pin_name)
    | None => None
    end.
Proof.
  intros Hs. unfold apq8096_get_pin_name.
  destruct (Z.ltb_spec s 150) as [Hlt | _]; [lia |].
  unfold u32. rewrite Z.mod_small by lia. reflexivity.
Qed.

(** The string a GPIO selector is given, whatever the buffer held. *)
Lemma pin_name_string_gpio (s : Z) (pin_name : list ascii) :
  s < 150 ->
  pin_name_string s pin_name = Some (string_of_list_ascii (format_GPIO_u s)).
Proof.
  intros Hs. unfold pin_name_string. rewrite (get_pin_name_gpio_run s _ Hs).
  cbn [deref]. rewrite cstr_terminated by apply format_GPIO_u_not_NUL.
  reflexivity.
Qed.

Lemma named_selector_cases (s : Z) :
  150 <= s < 157 ->
  s = 150 \/ s = 151 \/ s = 152 \/ s = 153 \/ s = 154 \/ s = 155 \/ s = 156.
Proof. lia. Qed.

(** X12. [pin_count] is where the names end: for a 32-bit selector the lookup of
    [get_pin_name] stays inside the driver's data exactly when the selector
    is below [pin_count]; from [pin_count] on the index [selector - 150]
    lies past the end of the table of named pins. *)
Theorem get_pin_name_defined_iff (s : Z) (pin_name : list ascii) :
  0 <= s < 2 ^ 32 ->
  (get_pin_name apq8096_data s pin_name <> None <-> s < pin_count apq8096_data) /\
  (pin_count apq8096_data <= s ->
   (List.length msm_pinctrl_pins <= Z.to_nat (s - 150))%nat).
Proof.
  intros Hs. cbn [get_pin_name pin_count apq8096_data].
  split.
  - destruct (Z_lt_le_dec s 150) as [Hgpio | Htable].
    + rewrite (get_pin_name_gpio_run s pin_name Hgpio).
      split; [intros _; lia | intros _; discriminate].
    + rewrite (get_pin_name_table_run s pin_name) by lia.
      destruct (Z_lt_le_dec s 157) as [Hnamed | Hout].
      * split; [intros _; exact Hnamed | intros _].
        destruct (named_selector_cases s (conj Htable Hnamed))
          as [-> | [-> | [-> | [-> | [-> | [-> | ->]]]]]]; discriminate.
      * assert (nth_error msm_pinctrl_pins (Z.to_nat (s - 150)) = None) as ->.
        { apply nth_error_None. cbn [List.length msm_pinctrl_pins]. lia. }
        split; [intros H; contradiction | lia].
  - intros Hout. cbn [List.length msm_pinctrl_pins]. lia.
Qed.

Lemma get_pin_name_defined_iff_witness :
  (get_pin_name apq8096_data 157 fresh_pin_name <> None <->
   157 < pin_count apq8096_data) /\
  (pin_count apq8096_data <= 157 ->
   (List.length msm_pinctrl_pins <= Z.to_nat (157 - 150))%nat).
Proof.
  apply (get_pin_name_defined_iff 157 fresh_pin_name). lia.
Defined.

(** X13. [functions_count] is where the functions end: for a selector that is
    not negative, [get_function_name] and [get_function_mux] index inside
    the table of functions exactly when the selector is below
    [functions_count], and then both answer. *)
Theorem get_function_defined_iff (s : Z) :
  0 <= s ->
  (get_function_name apq8096_data s <> None <->
   s < functions_count apq8096_data) /\
  (get_function_mux apq8096_data s <> None <->
   s < functions_count apq8096_data).
Proof.
  intros Hs.
  cbn [get_function_name get_function_mux functions_count apq8096_data].
  unfold apq8096_get_function_name, apq8096_get_function_mux, ARRAY_SIZE.
  destruct (nth_error msm_pinctrl_functions (Z.to_nat s)) as [f |] eqn:E.
  - assert (Z.to_nat s < List.length msm_pinctrl_functions)%nat as Hlt.
    { apply nth_error_Some. rewrite E. discriminate. }
    cbn [option_map].
    split; (split; [intros _; lia | intros _; discriminate]).
  - apply nth_error_None in E. cbn [option_map].
    split; (split; [intros H; contradiction | lia]).
Qed.

Lemma get_function_defined_iff_witness :
  (get_function_name apq8096_data 1 <> None <->
   1 < functions_count apq8096_data) /\
  (get_function_mux apq8096_data 1 <> None <->
   1 < functions_count apq8096_data).
Proof.
  apply (get_function_defined_iff 1). lia.
Defined.

(** *** Names tell pins apart *)

Lemma string_of_list_ascii_inj (l1 l2 : list ascii) :
  string_of_list_ascii l1 = string_of_list_ascii l2 -> l1 = l2.
Proof.
  intros H.
  rewrite <- (list_ascii_of_string_of_list_ascii l1).
  rewrite <- (list_ascii_of_string_of_list_ascii l2).
  rewrite H. reflexivity.
Qed.

(** The digits of a [u32] give the number back, so different numbers are
    printed differently. *)
Lemma format_GPIO_u_inj (s1 s2 : Z) :
  0 <= s1 < 2 ^ 32 ->
  0 <= s2 < 2 ^ 32 ->
  format_GPIO_u s1 = format_GPIO_u s2 ->
  s1 = s2.
Proof.
  intros H1 H2 Heq. unfold format_GPIO_u in Heq.
  apply app_inv_head in Heq.
  apply (f_equal digits_value) in Heq.
  rewrite !format_u_value in Heq. unfold u32 in Heq.
  rewrite !Z.mod_small in Heq by assumption. exact Heq.
Qed.

Lemma pin_name_string_named (s : Z) (pin_name : list ascii) :
  150 <= s < 157 ->
  pin_name_string s pin_name =
    nth_error msm_pinctrl_pins (Z.to_nat (s - 150)).
Proof.
  intros Hs.
  destruct (named_selector_cases s Hs)
    as [-> | [-> | [-> | [-> | [-> | [-> | ->]]]]]]; reflexivity.
Qed.

(** A generated name starts with G, a name of the table with S. *)
Lemma gpio_name_is_not_named (s1 s2 : Z) :
  150 <= s2 < 157 ->
  Some (string_of_list_ascii (format_GPIO_u s1)) <>
    nth_error msm_pinctrl_pins (Z.to_nat (s2 - 150)).
Proof.
  intros Hs2. unfold format_GPIO_u.
  cbn [list_ascii_of_string app string_of_list_ascii].
  destruct (named_selector_cases s2 Hs2)
    as [-> | [-> | [-> | [-> | [-> | [-> | ->]]]]]]; discriminate.
Qed.

(** X14. No two pins share a name: when two valid selectors are given the same
    string, in whatever state the buffer was at each call, they are the same
    selector. *)
Theorem pin_names_are_distinct (s1 s2 : Z) (buf1 buf2 : list ascii) :
  0 <= s1 < pin_count apq8096_data ->
  0 <= s2 < pin_count apq8096_data ->
  pin_name_string s1 buf1 = pin_name_string s2 buf2 ->
  s1 = s2.
Proof.
  cbn [pin_count apq8096_data]. intros H1 H2 Heq.
  destruct (Z_lt_le_dec s1 150) as [G1 | N1];
    destruct (Z_lt_le_dec s2 150) as [G2 | N2].
  - rewrite (pin_name_string_gpio s1 buf1 G1) in Heq.
    rewrite (pin_name_string_gpio s2 buf2 G2) in Heq.
    assert (string_of_list_ascii (format_GPIO_u s1) =
            string_of_list_ascii (format_GPIO_u s2)) as Hstr by congruence.
    apply string_of_list_ascii_inj in Hstr.
    apply format_GPIO_u_inj in Hstr; [exact Hstr | lia | lia].
  - rewrite (pin_name_string_gpio s1 buf1 G1) in Heq.
    rewrite (pin_name_string_named s2 buf2) in Heq by lia.
    exfalso. revert Heq. apply gpio_name_is_not_named. lia.
  - rewrite (pin_name_string_named s1 buf1) in Heq by lia.
    rewrite (pin_name_string_gpio s2 buf2 G2) in Heq.
    exfalso. symmetry in Heq. revert Heq. apply gpio_name_is_not_named. lia.
  - rewrite (pin_name_string_named s1 buf1) in Heq by lia.
    rewrite (pin_name_string_named s2 buf2) in Heq by lia.
    destruct (named_selector_cases s1 (conj N1 (proj2 H1)))
      as [-> | [-> | [-> | [-> | [-> | [-> | ->]]]]]];
      destruct (named_selector_cases s2 (conj N2 (proj2 H2)))
        as [-> | [-> | [-> | [-> | [-> | [-> | ->]]]]]];
      first [reflexivity | discriminate Heq].
Qed.

Lemma pin_names_are_distinct_witness :
  pin_name_string 149 fresh_pin_name =
    pin_name_string 149 (repeat "x"%char 32) /\
  149 = 149.
Proof.
  split; [reflexivity |].
  apply (pin_names_are_distinct 149 149 fresh_pin_name (repeat "x"%char 32)).
  - cbn. lia.
  - cbn. lia.
  - reflexivity.
Defined.

(** *** One buffer for all generated names *)

(** X15. Every call keeps the buffer at [MAX_PIN_NAME_LEN] bytes, whichever
    selector it is given. *)
Theorem get_pin_name_keeps_buffer_size (s : Z) (pin_name pin_name' : list ascii)
    (p : char_ptr) :
  List.length pin_name = Z.to_nat MAX_PIN_NAME_LEN ->
  get_pin_name apq8096_data s pin_name = Some (p, pin_name') ->
  List.length pin_name' = Z.to_nat MAX_PIN_NAME_LEN.
Proof.
  cbn [get_pin_name apq8096_data]. intros Hlen Hrun.
  destruct (Z_lt_le_dec s 150) as [Hgpio | Htable].
  - rewrite (get_pin_name_gpio_run s pin_name Hgpio) in Hrun.
    assert (pin_name' =
              format_GPIO_u s ++
                NUL :: skipn (S (List.length (format_GPIO_u s))) pin_name)
      as -> by congruence.
    pose proof (format_GPIO_u_length s) as Hfit.
    change (Z.to_nat MAX_PIN_NAME_LEN) with 32%nat in *.
    rewrite length_app. cbn [List.length]. rewrite length_skipn. lia.
  - unfold apq8096_get_pin_name in Hrun.
    destruct (Z.ltb_spec s 150) as [Hlt | _]; [lia |].
    destruct (nth_error msm_pinctrl_pins (Z.to_nat (u32 (s - 150))));
      [| discriminate Hrun].
    injection Hrun as _ <-. exact Hlen.
Qed.

Lemma get_pin_name_keeps_buffer_size_witness :
  List.length (snd (snprintf_GPIO_u fresh_pin_name MAX_PIN_NAME_LEN 7)) =
    Z.to_nat MAX_PIN_NAME_LEN.
Proof.
  apply (get_pin_name_keeps_buffer_size 7 fresh_pin_name _ Ptr_pin_name);
    reflexivity.
Defined.

(** X16. The name of a GPIO pin does not survive the next GPIO lookup: both calls
    return the same pointer, and after the second call the string behind
    the first pointer is the name of the second pin, not of the first. *)
Theorem second_gpio_name_overwrites_first (s1 s2 : Z) (pin_name : list ascii) :
  0 <= s1 < 150 ->
  0 <= s2 < 150 ->
  s1 <> s2 ->
  exists p1 buf1 p2 buf2,
    get_pin_name apq8096_data s1 pin_name = Some (p1, buf1) /\
    get_pin_name apq8096_data s2 buf1 = Some (p2, buf2) /\
    p1 = p2 /\
    deref p1 buf1 = ("GPIO_" ++ decimal s1)%string /\
    deref p1 buf2 = ("GPIO_" ++ decimal s2)%string /\
    deref p1 buf2 <> ("GPIO_" ++ decimal s1)%string.
Proof.
  intros H1 H2 Hne. cbn [get_pin_name apq8096_data].
  rewrite (get_pin_name_gpio_run s1 pin_name) by lia.
  do 4 eexists. split; [reflexivity |].
  rewrite get_pin_name_gpio_run by lia.
  split; [reflexivity |]. split; [reflexivity |].
  cbn [deref]. rewrite !cstr_terminated by apply format_GPIO_u_not_NUL.
  split; [apply format_GPIO_u_decimal; exact H1 |].
  split; [apply format_GPIO_u_decimal; exact H2 |].
  rewrite <- (format_GPIO_u_decimal s1 H1). intros Heq.
  apply string_of_list_ascii_inj in Heq.
  apply format_GPIO_u_inj in Heq; [| lia | lia].
  apply Hne. symmetry. exact Heq.
Qed.

Lemma second_gpio_name_overwrites_first_witness :
  exists p1 buf1 p2 buf2,
    get_pin_name apq8096_data 3 fresh_pin_name = Some (p1, buf1) /\
    get_pin_name apq8096_data 120 buf1 = Some (p2, buf2) /\
    p1 = p2 /\
    deref p1 buf1 = ("GPIO_" ++ decimal 3)%string /\
    deref p1 buf2 = ("GPIO_" ++ decimal 120)%string /\
    deref p1 buf2 <> ("GPIO_" ++ decimal 3)%string.
Proof.
  apply (second_gpio_name_overwrites_first 3 120 fresh_pin_name); lia.
Defined.

(** X17. Looking up a named pin in between does no harm: a GPIO name obtained
    before is still behind its pointer afterwards, and the named pin comes
    back as a literal of the table. *)
Theorem named_lookup_keeps_gpio_name (s1 s2 : Z) (pin_name : list ascii) :
  0 <= s1 < 150 ->
  150 <= s2 < 157 ->
  exists p1 buf1 lit,
    get_pin_name apq8096_data s1 pin_name = Some (p1, buf1) /\
    get_pin_name apq8096_data s2 buf1 = Some (Ptr_literal lit, buf1) /\
    deref p1 buf1 = ("GPIO_" ++ decimal s1)%string /\
    In lit msm_pinctrl_pins.
Proof.
  intros H1 H2. cbn [get_pin_name apq8096_data].
  destruct (nth_error msm_pinctrl_pins (Z.to_nat (s2 - 150))) as [lit |] eqn:E.
  - exists Ptr_pin_name. eexists. exists lit.
    split; [apply get_pin_name_gpio_run; lia |].
    split; [rewrite get_pin_name_table_run by lia; rewrite E; reflexivity |].
    split; [| exact (nth_error_In _ _ E)].
    cbn [deref]. rewrite cstr_terminated by apply format_GPIO_u_not_NUL.
    apply format_GPIO_u_decimal. exact H1.
  - apply nth_error_None in E. cbn [List.length msm_pinctrl_pins] in E. lia.
Qed.

Lemma named_lookup_keeps_gpio_name_witness :
  exists p1 buf1 lit,
    get_pin_name apq8096_data 8 fresh_pin_name = Some (p1, buf1) /\
    get_pin_name apq8096_data 152 buf1 = Some (Ptr_literal lit, buf1) /\
    deref p1 buf1 = ("GPIO_" ++ decimal 8)%string /\
    In lit msm_pinctrl_pins.
Proof.
  apply (named_lookup_keeps_gpio_name 8 152 fresh_pin_name); lia.
Defined.

End PinctrlLookups.
